(** * Resume_Chatbot: a shallow embedding of [chatbot.py]

    The program is a Streamlit script: every user interaction re-runs the
    module from top to bottom.  One run reads the widget values, possibly
    extracts the text of an uploaded PDF, possibly sends one prompt to the
    Gemini model, and writes to the page.

    Embedding:
    - Python [str] is [string] (the UTF-8 bytes of the source literals);
    - a call that may raise returns an [outcome]; [except Exception] catches
      instances of [Exception] only;
    - the page and the calls made to the model are a [World], threaded
      through a state-and-exception monad [M] in which the state survives a
      raised exception (what was written to the page stays written);
    - the vendor libraries (PyPDF2, google.generativeai) are not part of
      the repository: an uploaded file is described by what [PdfReader] and
      [extract_text] do with it, the remote service by a function from the
      configured credential and the prompt to an outcome. *)

From Stdlib Require Import String Ascii List Bool Lia.
Import ListNotations.
Open Scope string_scope.

(** ** Python values and exceptions *)

(** [str(e)] is the only thing the program observes of an exception. *)
Inductive exc : Type :=
| Exception (msg : string)       (* an instance of Exception *)
| BaseException (msg : string).  (* KeyboardInterrupt, SystemExit, ... *)

Definition str (e : exc) : string :=
  match e with Exception msg => msg | BaseException msg => msg end.

Inductive outcome (A : Type) : Type :=
| Return (a : A)
| Raise (e : exc).
Arguments Return {A} a.
Arguments Raise {A} e.

(** The newline of the triple-quoted templates. *)
Definition LF : string := String "010"%char EmptyString.

(** [s.replace(old, new)] for one-character [old] and [new]. *)
Fixpoint replace (old new : ascii) (s : string) : string :=
  match s with
  | EmptyString => EmptyString
  | String c rest =>
      String (if Ascii.eqb c old then new else c) (replace old new rest)
  end.

(** Truth value of a [str]: empty is false. *)
Definition truthy (s : string) : bool :=
  match s with EmptyString => false | String _ _ => true end.

(** ** External collaborators *)

(** PyPDF2: a page is what [page.extract_text()] does, an uploaded file is
    what [PyPDF2.PdfReader(uploaded_file).pages] does. *)
Record Page : Type := { extract_text : outcome string }.
Record UploadedFile : Type := { PdfReader : outcome (list Page) }.

(** google.generativeai: [response.text] is a property that may raise (a
    response without a usable candidate). *)
Record Response : Type := { text : outcome string }.

(** The remote service behind [model.generate_content]: it sees the
    configured API key and the prompt. *)
Definition GenerativeModel : Type := option string -> string -> outcome Response.

(** The process environment after [load_dotenv()]. *)
Definition Environ : Type := string -> option string.

(** ** The page and the world *)

Inductive UiEvent : Type :=
| st_set_page_config (page_title layout page_icon : string)
| st_title (body : string)
| st_sidebar_title (body : string)
| st_sidebar_markdown (body : string)
| st_header (body : string)
| st_subheader (body : string)
| st_markdown (body : string)
| st_success (body : string)
| st_error (body : string)
| st_spinner (body : string)
| st_download_button (label data file_name mime : string).

Record World : Type := {
  api_key : option string;      (* set by genai.configure *)
  gen_calls : list string;      (* prompts passed to model.generate_content *)
  ui : list UiEvent             (* what the run wrote to the page, in order *)
}.

Definition initial_world : World :=
  {| api_key := None; gen_calls := []; ui := [] |}.

Definition log_call (prompt : string) (w : World) : World :=
  {| api_key := api_key w; gen_calls := gen_calls w ++ [prompt]; ui := ui w |}.

Definition log_ui (e : UiEvent) (w : World) : World :=
  {| api_key := api_key w; gen_calls := gen_calls w; ui := ui w ++ [e] |}.

Definition set_api_key (k : option string) (w : World) : World :=
  {| api_key := k; gen_calls := gen_calls w; ui := ui w |}.

(** The widget values of one run: what the user selected, typed, uploaded
    and clicked. *)
Record Widgets : Type := {
  option_choice : string;                 (* sidebar selectbox *)
  uploaded_file : option UploadedFile;    (* st.file_uploader *)
  analyze_button : bool;
  goal : string;
  experience_level : string;
  roadmap_button : bool;
  domain : string;
  interview_type : string;
  interview_button : bool;
  question : string;
  advice_button : bool
}.

(** ** The monad of a run *)

Definition M (A : Type) : Type := World -> outcome A * World.

Definition ret {A : Type} (a : A) : M A := fun w => (Return a, w).

Definition bind {A B : Type} (c : M A) (k : A -> M B) : M B :=
  fun w =>
    match c w with
    | (Return a, w') => k a w'
    | (Raise e, w') => (Raise e, w')
    end.

Notation "x <- c ;; k" := (bind c (fun x => k))
  (at level 61, c at next level, right associativity).
Notation "c ;; k" := (bind c (fun _ => k))
  (at level 61, right associativity).

(** [try: body  except Exception as e: handler]. *)
Definition try_except {A : Type} (body : M A) (handler : exc -> M A) : M A :=
  fun w =>
    match body w with
    | (Raise (Exception msg), w') => handler (Exception msg) w'
    | r => r
    end.

Definition lift {A : Type} (o : outcome A) : M A := fun w => (o, w).

(** [if cond: body] with no [else]. *)
Definition when (cond : bool) (body : M unit) : M unit :=
  if cond then body else ret tt.

Definition st (e : UiEvent) : M unit := fun w => (Return tt, log_ui e w).

Definition genai_configure (k : option string) : M unit :=
  fun w => (Return tt, set_api_key k w).

(** ** The program *)

Section Chatbot.

(** [model = genai.GenerativeModel('models/gemini-2.0-flash')]. *)
Variable model : GenerativeModel.

Definition generate_content (prompt : string) : M Response :=
  fun w => (model (api_key w) prompt, log_call prompt w).

(** *** Helper functions *)

(** The [for page in pdf_reader.pages: text += page.extract_text()] loop,
    from the current value of [text]. *)
Fixpoint for_page_in (pages : list Page) (text : string) : M string :=
  match pages with
  | [] => ret text
  | page :: rest =>
      t <- lift (extract_text page) ;;
      for_page_in rest (text ++ t)
  end.

(** Returns [None] where the source returns [None]. *)
Definition extract_text_from_pdf (uploaded_file : UploadedFile)
  : M (option string) :=
  try_except
    (pages <- lift (PdfReader uploaded_file) ;;
     text <- for_page_in pages "" ;;
     ret (Some text))
    (fun e =>
       st (st_error ("Error reading PDF: " ++ str e)) ;;
       ret None).

Definition resume_feedback_prompt (resume_text : string) : string :=
  LF ++
  "    Analyze the following resume and provide professional feedback. " ++ LF ++
  "    Focus on:" ++ LF ++
  "    1. Content quality and relevance" ++ LF ++
  "    2. Formatting and structure" ++ LF ++
  "    3. Skills presentation" ++ LF ++
  "    4. Project descriptions" ++ LF ++
  "    5. Career path recommendations" ++ LF ++
  "    6. Areas for improvement" ++ LF ++
  "    " ++ LF ++
  "    Please provide specific, actionable suggestions." ++ LF ++
  LF ++
  "    Resume Content:" ++ LF ++
  "    " ++ resume_text ++ LF ++
  "    ".

Definition get_resume_feedback (resume_text : string) : M string :=
  let prompt := resume_feedback_prompt resume_text in
  try_except
    (response <- generate_content prompt ;;
     lift (text response))
    (fun e => ret ("Error generating feedback: " ++ str e)).

Definition roadmap_prompt (goal : string) : string :=
  LF ++
  "    Create a detailed learning and career roadmap for someone who wants to become a "
    ++ goal ++ ". " ++ LF ++
  "    " ++ LF ++
  "    Please include:" ++ LF ++
  "    1. Essential skills and technologies to learn" ++ LF ++
  "    2. Recommended learning sequence (beginner to advanced)" ++ LF ++
  "    3. Important tools and frameworks" ++ LF ++
  "    4. Relevant certifications" ++ LF ++
  "    5. Practice project ideas" ++ LF ++
  "    6. Timeline estimates" ++ LF ++
  "    7. Job market insights" ++ LF ++
  "    8. Salary expectations" ++ LF ++
  "    " ++ LF ++
  "    Format the response clearly with sections and bullet points where appropriate." ++ LF ++
  "    ".

Definition generate_roadmap (goal : string) : M string :=
  let prompt := roadmap_prompt goal in
  try_except
    (response <- generate_content prompt ;;
     lift (text response))
    (fun e => ret ("Error generating roadmap: " ++ str e)).

Definition mock_interview_prompt (domain : string) : string :=
  LF ++
  "    Create a mock technical interview simulation for a "
    ++ domain ++ " role. " ++ LF ++
  "    " ++ LF ++
  "    Please provide:" ++ LF ++
  "    1. 5 technical questions (mix of conceptual and practical)" ++ LF ++
  "    2. 2 behavioral questions" ++ LF ++
  "    3. 1 scenario-based problem-solving question" ++ LF ++
  "    " ++ LF ++
  "    For each question, also provide:" ++ LF ++
  "    - What the interviewer is looking for" ++ LF ++
  "    - Key points a good answer should cover" ++ LF ++
  "    " ++ LF ++
  "    Format this as a realistic interview experience." ++ LF ++
  "    ".

Definition mock_interview (domain : string) : M string :=
  let prompt := mock_interview_prompt domain in
  try_except
    (response <- generate_content prompt ;;
     lift (text response))
    (fun e => ret ("Error generating interview questions: " ++ str e)).

Definition career_advice_prompt (question : string) : string :=
  LF ++
  "    As an experienced career coach, please provide helpful and actionable advice for the following career question:" ++ LF ++
  "    " ++ LF ++
  "    Question: " ++ question ++ LF ++
  "    " ++ LF ++
  "    Please provide:" ++ LF ++
  "    1. Direct answer to the question" ++ LF ++
  "    2. Practical steps to take" ++ LF ++
  "    3. Additional considerations" ++ LF ++
  "    4. Resources or next steps to explore" ++ LF ++
  "    ".

Definition get_career_advice (question : string) : M string :=
  let prompt := career_advice_prompt question in
  try_except
    (response <- generate_content prompt ;;
     lift (text response))
    (fun e => ret ("Error generating advice: " ++ str e)).

(** *** The four pages of the Streamlit UI *)

Variable wd : Widgets.

Definition resume_feedback_page : M unit :=
  st (st_header "📄 Resume Analyzer") ;;
  st (st_markdown "Upload your resume and get professional feedback to improve your chances!") ;;
  match uploaded_file wd with
  | None => ret tt
  | Some file =>
      st (st_success "✅ Resume uploaded successfully!") ;;
      when (analyze_button wd) (
        st (st_spinner "🤖 AI is analyzing your resume...") ;;
        resume_text <- extract_text_from_pdf file ;;
        match resume_text with
        | None => ret tt
        | Some resume_text =>
            when (truthy resume_text) (
              feedback <- get_resume_feedback resume_text ;;
              st (st_subheader "📝 Professional Feedback") ;;
              st (st_markdown feedback) ;;
              st (st_download_button "📥 Download Feedback" feedback
                    "resume_feedback.txt" "text/plain"))
        end)
  end.

(** [f"{goal} (Current level: {experience_level})"]. *)
Definition roadmap_enhanced_prompt (goal experience_level : string) : string :=
  goal ++ " (Current level: " ++ experience_level ++ ")".

Definition career_roadmap_page : M unit :=
  st (st_header "📈 Career Path Generator") ;;
  st (st_markdown "Get a personalized roadmap for your dream career!") ;;
  when (truthy (goal wd)) (
    when (roadmap_button wd) (
      let enhanced_prompt :=
        roadmap_enhanced_prompt (goal wd) (experience_level wd) in
      st (st_spinner "🤖 Creating your personalized roadmap...") ;;
      roadmap <- generate_roadmap enhanced_prompt ;;
      st (st_subheader "🧭 Your Learning Roadmap") ;;
      st (st_markdown roadmap) ;;
      st (st_download_button "📥 Download Roadmap" roadmap
            (replace " " "_" (goal wd) ++ "_roadmap.txt") "text/plain"))).

(** [f"{domain} - {interview_type} focus"]. *)
Definition interview_enhanced_prompt (domain interview_type : string) : string :=
  domain ++ " - " ++ interview_type ++ " focus".

Definition mock_interview_page : M unit :=
  st (st_header "🎤 Mock Interview Simulator") ;;
  st (st_markdown "Practice with AI-generated interview questions tailored to your target role!") ;;
  when (truthy (domain wd)) (
    when (interview_button wd) (
      let enhanced_prompt :=
        interview_enhanced_prompt (domain wd) (interview_type wd) in
      st (st_spinner "🤖 Generating interview questions...") ;;
      questions <- mock_interview enhanced_prompt ;;
      st (st_subheader "🧪 Interview Questions") ;;
      st (st_markdown questions) ;;
      st (st_download_button "📥 Download Questions" questions
            (replace " " "_" (domain wd) ++ "_interview_questions.txt")
            "text/plain"))).

Definition career_advice_page : M unit :=
  st (st_header "💡 Career Advice") ;;
  st (st_markdown "Get personalized career guidance from our AI coach!") ;;
  when (truthy (question wd)) (
    when (advice_button wd) (
      st (st_spinner "🤖 AI is thinking about your question...") ;;
      advice <- get_career_advice (question wd) ;;
      st (st_subheader "💬 Career Advice") ;;
      st (st_markdown advice) ;;
      st (st_download_button "📥 Download Advice" advice
            "career_advice.txt" "text/plain"))).

(** *** The script *)

Definition page_top : M unit :=
  st (st_set_page_config "AI Career Coach Chatbot" "wide" "🧠") ;;
  st (st_title "🧠 AI Career Coach Chatbot") ;;
  st (st_sidebar_title "🚀 Services").

Definition page_bottom : M unit :=
  st (st_markdown "---") ;;
  st (st_sidebar_markdown "### 🎯 Features") ;;
  st (st_sidebar_markdown
        (LF ++
         "- 📄 Resume analysis & feedback" ++ LF ++
         "- 📈 Personalized career roadmaps  " ++ LF ++
         "- 🎤 Mock interview questions" ++ LF ++
         "- 💡 General career advice" ++ LF ++
         "- 📥 Download all results" ++ LF)).

Variable environ : Environ.

Definition main : M unit :=
  genai_configure (environ "GEMINI_API_KEY") ;;
  page_top ;;
  (if option_choice wd =? "Resume Feedback" then resume_feedback_page
   else if option_choice wd =? "Career Roadmap" then career_roadmap_page
   else if option_choice wd =? "Mock Interview" then mock_interview_page
   else if option_choice wd =? "Career Advice" then career_advice_page
   else ret tt) ;;
  page_bottom.

End Chatbot.

(** One run of the script, from a fresh process. *)
Definition run (model : GenerativeModel) (environ : Environ) (wd : Widgets)
  : outcome unit * World :=
  main model wd environ initial_world.

(** ** Vocabulary of the specification *)

Inductive UseCase : Type :=
| ResumeFeedback
| CareerRoadmap
| MockInterview
| CareerAdvice.

(** The label of the sidebar selectbox that selects a use case. *)
Definition service_label (uc : UseCase) : string :=
  match uc with
  | ResumeFeedback => "Resume Feedback"
  | CareerRoadmap => "Career Roadmap"
  | MockInterview => "Mock Interview"
  | CareerAdvice => "Career Advice"
  end.

(** The prompt builder of a use case. *)
Definition build (uc : UseCase) : string -> string :=
  match uc with
  | ResumeFeedback => resume_feedback_prompt
  | CareerRoadmap => roadmap_prompt
  | MockInterview => mock_interview_prompt
  | CareerAdvice => career_advice_prompt
  end.

(** The use-case function of a use case. *)
Definition use_case_function (model : GenerativeModel) (uc : UseCase)
  : string -> M string :=
  match uc with
  | ResumeFeedback => get_resume_feedback model
  | CareerRoadmap => generate_roadmap model
  | MockInterview => mock_interview model
  | CareerAdvice => get_career_advice model
  end.

(** The text each use-case function puts before [str(e)]. *)
Definition error_prefix (uc : UseCase) : string :=
  match uc with
  | ResumeFeedback => "Error generating feedback: "
  | CareerRoadmap => "Error generating roadmap: "
  | MockInterview => "Error generating interview questions: "
  | CareerAdvice => "Error generating advice: "
  end.

(** [s] occurs in [t] as a contiguous run of characters. *)
Definition is_substring (s t : string) : Prop :=
  exists pre post, t = pre ++ s ++ post.

(** An executable test for the same. *)
Fixpoint starts_with (s t : string) : bool :=
  match s, t with
  | EmptyString, _ => true
  | String a s', String b t' => Ascii.eqb a b && starts_with s' t'
  | String _ _, EmptyString => false
  end.

Fixpoint contains (s t : string) : bool :=
  starts_with s t ||
  match t with
  | EmptyString => false
  | String _ t' => contains s t'
  end.

(** The remote call for [prompt] ends in an [Exception] whose [str] is
    [msg]: either [generate_content] raises it, or reading [response.text]
    does. *)
Definition generation_raises (model : GenerativeModel) (key : option string)
    (prompt msg : string) : Prop :=
  model key prompt = Raise (Exception msg) \/
  exists response,
    model key prompt = Return response /\ text response = Raise (Exception msg).

(** The remote call for [prompt] succeeds with text [T]. *)
Definition generation_returns (model : GenerativeModel) (key : option string)
    (prompt T : string) : Prop :=
  exists response,
    model key prompt = Return response /\ text response = Return T.

(** Reading the file ends in an [Exception] whose [str] is [msg]: the
    reader raises it, or some page does after the pages before it were
    read. *)
Inductive extraction_raises (file : UploadedFile) (msg : string) : Prop :=
| reader_raises :
    PdfReader file = Raise (Exception msg) ->
    extraction_raises file msg
| page_raises (read : list Page) (texts : list string) (bad : Page)
    (rest : list Page) :
    PdfReader file = Return (read ++ bad :: rest)%list ->
    map extract_text read = map Return texts ->
    extract_text bad = Raise (Exception msg) ->
    extraction_raises file msg.

(** Every page of the file is read, with texts [texts] in page order. *)
Definition well_formed (file : UploadedFile) (texts : list string) : Prop :=
  exists pages,
    PdfReader file = Return pages /\ map extract_text pages = map Return texts.

(** The run reaches the use-case function of [uc] and passes it [input]:
    the service is selected, the required input is present, the button is
    clicked and, for a résumé, the file is read to a non-empty text. *)
Inductive dispatches (wd : Widgets) : UseCase -> string -> Prop :=
| dispatches_resume_feedback (file : UploadedFile) (texts : list string) :
    option_choice wd = "Resume Feedback" ->
    uploaded_file wd = Some file ->
    analyze_button wd = true ->
    well_formed file texts ->
    truthy (String.concat "" texts) = true ->
    dispatches wd ResumeFeedback (String.concat "" texts)
| dispatches_career_roadmap :
    option_choice wd = "Career Roadmap" ->
    truthy (goal wd) = true ->
    roadmap_button wd = true ->
    dispatches wd CareerRoadmap
      (roadmap_enhanced_prompt (goal wd) (experience_level wd))
| dispatches_mock_interview :
    option_choice wd = "Mock Interview" ->
    truthy (domain wd) = true ->
    interview_button wd = true ->
    dispatches wd MockInterview
      (interview_enhanced_prompt (domain wd) (interview_type wd))
| dispatches_career_advice :
    option_choice wd = "Career Advice" ->
    truthy (question wd) = true ->
    advice_button wd = true ->
    dispatches wd CareerAdvice (question wd).

(** The required input of [uc] is missing from the widgets. *)
Definition required_input_empty (uc : UseCase) (wd : Widgets) : Prop :=
  match uc with
  | ResumeFeedback => uploaded_file wd = None
  | CareerRoadmap => goal wd = ""
  | MockInterview => domain wd = ""
  | CareerAdvice => question wd = ""
  end.

(** What a run shows as results: each text rendered with [st.markdown]
    and immediately offered for download, as (rendered, downloadable). *)
Fixpoint results (ui : list UiEvent) : list (string * string) :=
  match ui with
  | [] => []
  | e :: rest =>
      match e, rest with
      | st_markdown body, st_download_button _ data _ _ :: _ =>
          (body, data) :: results rest
      | _, _ => results rest
      end
  end.

(** The messages a run shows with [st.error]. *)
Fixpoint errors (ui : list UiEvent) : list string :=
  match ui with
  | [] => []
  | st_error body :: rest => body :: errors rest
  | _ :: rest => errors rest
  end.

(** The three numbered requests of the interview template. *)
Definition requested_questions : string :=
  "    Please provide:" ++ LF ++
  "    1. 5 technical questions (mix of conceptual and practical)" ++ LF ++
  "    2. 2 behavioral questions" ++ LF ++
  "    3. 1 scenario-based problem-solving question" ++ LF.

(** The interview template around its one field. *)
Definition interview_frame_head : string :=
  LF ++ "    Create a mock technical interview simulation for a ".

Definition interview_frame_tail : string :=
  " role. " ++ LF ++
  "    " ++ LF ++
  requested_questions ++
  "    " ++ LF ++
  "    For each question, also provide:" ++ LF ++
  "    - What the interviewer is looking for" ++ LF ++
  "    - Key points a good answer should cover" ++ LF ++
  "    " ++ LF ++
  "    Format this as a realistic interview experience." ++ LF ++
  "    ".

(** ** The generation client of the specification *)

(** The remote generation service: the one call
    [generateContent(modelId, promptText)], made with a credential. *)
Definition RemoteService : Type := string -> string -> outcome Response.

(** Modelled from the spec: the vendor client google.generativeai, which
    [genai.configure] configures and [model.generate_content] enters, is
    not in the repository.  The spec (sections 4.3, 6 and 7) has it
    configured with one API credential; when that credential is absent it
    fails with a configuration error, surfaced immediately, and attempts
    no request; otherwise it issues one request per call to the remote
    service and hands back its outcome.  The second component lists the
    requests the call sent to the remote service. *)
Definition generation_client (configuration_error : string)
    (remote : RemoteService) (key : option string) (prompt : string)
  : outcome Response * list string :=
  match key with
  | None => (Raise (Exception configuration_error), [])
  | Some credential => (remote credential prompt, [prompt])
  end.

(** The model object the script holds, over that client. *)
Definition client_model (configuration_error : string)
    (remote : RemoteService) : GenerativeModel :=
  fun key prompt => fst (generation_client configuration_error remote key prompt).

(** The requests that reached the remote service in a run that ended in
    [w]: what the client sent at each entry of [model.generate_content],
    under the key the script configured. *)
Definition requests_sent (configuration_error : string)
    (remote : RemoteService) (w : World) : list string :=
  flat_map
    (fun prompt =>
       snd (generation_client configuration_error remote (api_key w) prompt))
    (gen_calls w).

(** ** Concrete inputs *)

Module Examples.

(** Every button clicked, [input] typed in every text field, [selected]
    chosen in both selectboxes of the pages. *)
Definition widgets (choice : string) (file : option UploadedFile)
    (input selected : string) : Widgets :=
  {| option_choice := choice;
     uploaded_file := file;
     analyze_button := true;
     goal := input;
     experience_level := selected;
     roadmap_button := true;
     domain := input;
     interview_type := selected;
     interview_button := true;
     question := input;
     advice_button := true |}.

Definition page_of (t : string) : Page := {| extract_text := Return t |}.

Definition two_pages : UploadedFile :=
  {| PdfReader := Return [page_of "Jane Doe"; page_of "Skills: Rocq"] |}.

(** A scanned document: two pages, no text layer. *)
Definition scanned : UploadedFile :=
  {| PdfReader := Return [page_of ""; page_of ""] |}.

Definition corrupt : UploadedFile :=
  {| PdfReader := Raise (Exception "EOF marker not found") |}.

(** The first page reads, the second does not. *)
Definition torn : UploadedFile :=
  {| PdfReader :=
       Return [page_of "Jane Doe";
               {| extract_text := Raise (Exception "unsupported encoding") |}] |}.

Definition with_key : Environ :=
  fun name => if name =? "GEMINI_API_KEY" then Some "secret" else None.

Definition without_key : Environ := fun _ => None.

(** A test double that answers every prompt with [T]. *)
Definition answers (T : string) : GenerativeModel :=
  fun _ _ => Return {| text := Return T |}.

(** A test double that raises a transport fault on every prompt. *)
Definition faults (msg : string) : GenerativeModel :=
  fun _ _ => Raise (Exception msg).

(** A remote service that answers every request with [T]. *)
Definition remote_answers (T : string) : RemoteService :=
  fun _ _ => Return {| text := Return T |}.

End Examples.

(** ** Vocabulary of the further properties *)


(** Two widget states agree on what the page of [uc] reads. *)
Definition same_page_inputs (uc : UseCase) (wd wd' : Widgets) : Prop :=
  match uc with
  | ResumeFeedback =>
      uploaded_file wd = uploaded_file wd' /\
      analyze_button wd = analyze_button wd'
  | CareerRoadmap =>
      goal wd = goal wd' /\
      experience_level wd = experience_level wd' /\
      roadmap_button wd = roadmap_button wd'
  | MockInterview =>
      domain wd = domain wd' /\
      interview_type wd = interview_type wd' /\
      interview_button wd = interview_button wd'
  | CareerAdvice =>
      question wd = question wd' /\
      advice_button wd = advice_button wd'
  end.

(** The file names of the download buttons of a page. *)
Fixpoint download_names (ui : list UiEvent) : list string :=
  match ui with
  | [] => []
  | st_download_button _ _ file_name _ :: rest => file_name :: download_names rest
  | _ :: rest => download_names rest
  end.

(** The data of every download button of a page, in order. *)
Fixpoint download_data (ui : list UiEvent) : list string :=
  match ui with
  | [] => []
  | st_download_button _ data _ _ :: rest => data :: download_data rest
  | _ :: rest => download_data rest
  end.


(** The file name the page of [uc] gives to its download. *)
Definition download_name (uc : UseCase) (wd : Widgets) : string :=
  match uc with
  | ResumeFeedback => "resume_feedback.txt"
  | CareerRoadmap => replace " " "_" (goal wd) ++ "_roadmap.txt"
  | MockInterview => replace " " "_" (domain wd) ++ "_interview_questions.txt"
  | CareerAdvice => "career_advice.txt"
  end.

(** The character [c] occurs in [s]. *)
Fixpoint occurs (c : ascii) (s : string) : bool :=
  match s with
  | EmptyString => false
  | String a rest => Ascii.eqb a c || occurs c rest
  end.

(** The remote call for [prompt] ends in an exception that is not an
    [Exception]. *)
Definition generation_aborts (model : GenerativeModel) (key : option string)
    (prompt msg : string) : Prop :=
  model key prompt = Raise (BaseException msg) \/
  exists response,
    model key prompt = Return response /\
    text response = Raise (BaseException msg).

(** The events every run starts with, and those a completed run ends
    with. *)
Definition top_events : list UiEvent := ui (snd (page_top initial_world)).
Definition bottom_events : list UiEvent := ui (snd (page_bottom initial_world)).

Module Cases.

(** A model call interrupted from outside (Ctrl-C). *)
Definition interrupted : GenerativeModel :=
  fun _ _ => Raise (BaseException "KeyboardInterrupt").

(** A service that answers, with a response that holds no text. *)
Definition blocked : GenerativeModel :=
  fun _ _ => Return {| text := Raise (Exception "response has no candidates") |}.

(** Nothing typed, nothing uploaded, nothing clicked. *)
Definition untouched (choice : string) : Widgets :=
  {| option_choice := choice;
     uploaded_file := None;
     analyze_button := false;
     goal := "";
     experience_level := "Beginner";
     roadmap_button := false;
     domain := "";
     interview_type := "Technical + Behavioral";
     interview_button := false;
     question := "";
     advice_button := false |}.


(** The Career Advice page, with what earlier visits left on the other
    pages. *)
Definition advice_with_leftovers (input : string) : Widgets :=
  {| option_choice := "Career Advice";
     uploaded_file := Some Examples.corrupt;
     analyze_button := false;
     goal := "DevOps Engineer";
     experience_level := "Advanced";
     roadmap_button := false;
     domain := "Cloud Engineer";
     interview_type := "Behavioral Only";
     interview_button := false;
     question := input;
     advice_button := true |}.

End Cases.

(** ** Strings *)

Lemma append_nil_r (s : string) : s ++ "" = s.
Proof. induction s as [|c s IH]; simpl; [reflexivity | now rewrite IH]. Qed.

Lemma append_assoc (a b c : string) : (a ++ b) ++ c = a ++ b ++ c.
Proof. induction a as [|x a IH]; simpl; [reflexivity | now rewrite IH]. Qed.

Lemma concat_cons (x : string) (xs : list string) :
  String.concat "" (x :: xs) = x ++ String.concat "" xs.
Proof.
  destruct xs as [|y ys]; simpl; [now rewrite append_nil_r | reflexivity].
Qed.

Lemma is_substring_refl (s : string) : is_substring s s.
Proof. exists "", "". simpl. now rewrite append_nil_r. Qed.

Lemma is_substring_head (s post : string) : is_substring s (s ++ post).
Proof. exists "", post. reflexivity. Qed.

Lemma is_substring_cons (s t : string) (c : ascii) :
  is_substring s t -> is_substring s (String c t).
Proof. intros (pre & post & ->). exists (String c pre), post. reflexivity. Qed.

Lemma is_substring_app (s t pre post : string) :
  is_substring s t -> is_substring s (pre ++ t ++ post).
Proof.
  intros (a & b & ->). exists (pre ++ a), (b ++ post).
  now rewrite !append_assoc.
Qed.

Lemma starts_with_sound (s t : string) :
  starts_with s t = true -> exists post, t = s ++ post.
Proof.
  revert t. induction s as [|a s IH]; intros t H.
  - exists t. reflexivity.
  - destruct t as [|b t]; simpl in H; [discriminate|].
    apply andb_true_iff in H as [Hab Hst].
    apply Ascii.eqb_eq in Hab. subst b.
    destruct (IH _ Hst) as [post ->]. exists post. reflexivity.
Qed.

Lemma contains_sound (s t : string) :
  contains s t = true -> is_substring s t.
Proof.
  induction t as [|c t IH]; simpl; rewrite orb_true_iff; intros [H|H].
  - destruct (starts_with_sound _ _ H) as [post ->]. apply is_substring_head.
  - discriminate.
  - destruct (starts_with_sound _ _ H) as [post ->]. apply is_substring_head.
  - apply is_substring_cons, IH, H.
Qed.

(** Walks down the literal part of a template to the substituted field. *)
Ltac find_field :=
  cbn; repeat apply is_substring_cons; apply is_substring_head.

Lemma build_contains_field (uc : UseCase) (v : string) :
  is_substring v (build uc v).
Proof. destruct uc; find_field. Qed.

(** ** The text extractor *)

Lemma for_page_in_all_read (pages : list Page) :
  forall (texts : list string) (acc : string) (w : World),
    map extract_text pages = map Return texts ->
    for_page_in pages acc w = (Return (acc ++ String.concat "" texts), w).
Proof.
  induction pages as [|page pages IH]; intros texts acc w Hmap;
    destruct texts as [|t texts]; try discriminate.
  - simpl. now rewrite append_nil_r.
  - injection Hmap as Hpage Hrest.
    cbn [for_page_in]. unfold bind, lift. rewrite Hpage.
    rewrite (IH texts (acc ++ t) w Hrest).
    now rewrite concat_cons, append_assoc.
Qed.

Lemma for_page_in_raises (read : list Page) :
  forall (texts : list string) (bad : Page) (rest : list Page) (e : exc)
         (acc : string) (w : World),
    map extract_text read = map Return texts ->
    extract_text bad = Raise e ->
    for_page_in (read ++ bad :: rest) acc w = (Raise e, w).
Proof.
  induction read as [|page read IH]; intros texts bad rest e acc w Hmap Hbad;
    destruct texts as [|t texts]; try discriminate.
  - cbn [app for_page_in]. unfold bind, lift. now rewrite Hbad.
  - injection Hmap as Hpage Hrest.
    cbn [app for_page_in]. unfold bind, lift. rewrite Hpage.
    apply (IH texts); assumption.
Qed.

Lemma extract_text_from_pdf_ok (file : UploadedFile) (texts : list string)
    (w : World) :
  well_formed file texts ->
  extract_text_from_pdf file w = (Return (Some (String.concat "" texts)), w).
Proof.
  intros (pages & Hreader & Hpages).
  unfold extract_text_from_pdf, try_except, bind, lift.
  rewrite Hreader, (for_page_in_all_read pages texts "" w Hpages).
  reflexivity.
Qed.

Lemma extract_text_from_pdf_error (file : UploadedFile) (msg : string)
    (w : World) :
  extraction_raises file msg ->
  extract_text_from_pdf file w =
    (Return None, log_ui (st_error ("Error reading PDF: " ++ msg)) w).
Proof.
  intros [Hreader | read texts bad rest Hreader Hread Hbad];
    unfold extract_text_from_pdf, try_except, bind, lift; rewrite Hreader.
  - reflexivity.
  - rewrite (for_page_in_raises read texts bad rest _ "" w Hread Hbad).
    reflexivity.
Qed.

(** An exception that is not an [Exception] is not caught. *)
Lemma extract_text_from_pdf_base_exception (file : UploadedFile)
    (msg : string) (w : World) :
  PdfReader file = Raise (BaseException msg) ->
  extract_text_from_pdf file w = (Raise (BaseException msg), w).
Proof.
  intros Hreader. unfold extract_text_from_pdf, try_except, bind, lift.
  now rewrite Hreader.
Qed.

(** ** The use-case functions *)

Lemma use_case_function_returns (model : GenerativeModel) (uc : UseCase)
    (input T : string) (w : World) :
  generation_returns model (api_key w) (build uc input) T ->
  use_case_function model uc input w = (Return T, log_call (build uc input) w).
Proof.
  intros (response & Hgen & Htext).
  destruct uc; cbn [use_case_function build] in *;
    unfold get_resume_feedback, generate_roadmap, mock_interview,
      get_career_advice, try_except, bind, generate_content, lift;
    rewrite Hgen, Htext; reflexivity.
Qed.

Lemma use_case_function_catches (model : GenerativeModel) (uc : UseCase)
    (input msg : string) (w : World) :
  generation_raises model (api_key w) (build uc input) msg ->
  use_case_function model uc input w =
    (Return (error_prefix uc ++ msg), log_call (build uc input) w).
Proof.
  intros [Hgen | (response & Hgen & Htext)];
    destruct uc; cbn [use_case_function build error_prefix] in *;
    unfold get_resume_feedback, generate_roadmap, mock_interview,
      get_career_advice, try_except, bind, generate_content, lift, ret;
    rewrite Hgen; try rewrite Htext; reflexivity.
Qed.

Lemma error_prefix_nonempty (uc : UseCase) (msg : string) :
  error_prefix uc ++ msg <> "".
Proof. destruct uc; discriminate. Qed.

(** ** Runs of the script *)

Ltac run_script :=
  unfold run, main, resume_feedback_page, career_roadmap_page,
    mock_interview_page, career_advice_page, page_top, page_bottom,
    genai_configure, when, bind, st, ret.

Ltac run_pure :=
  cbn -[get_resume_feedback generate_roadmap mock_interview get_career_advice
        extract_text_from_pdf build].

Lemma run_dispatches (model : GenerativeModel) (environ : Environ)
    (wd : Widgets) (uc : UseCase) (input result : string) :
  dispatches wd uc input ->
  (forall w, api_key w = environ "GEMINI_API_KEY" ->
     use_case_function model uc input w =
       (Return result, log_call (build uc input) w)) ->
  fst (run model environ wd) = Return tt /\
  gen_calls (snd (run model environ wd)) = [build uc input] /\
  results (ui (snd (run model environ wd))) = [(result, result)].
Proof.
  intros Hd Hf.
  destruct Hd as [file texts Hopt Hfile Hbtn Hwf Htext | Hopt Hin Hbtn
                 | Hopt Hin Hbtn | Hopt Hin Hbtn];
    cbn [use_case_function] in Hf; run_script; rewrite Hopt; run_pure.
  - rewrite Hfile, Hbtn, (extract_text_from_pdf_ok file texts _ Hwf), Htext.
    rewrite Hf by reflexivity. run_pure. auto.
  - rewrite Hin, Hbtn, Hf by reflexivity. run_pure. auto.
  - rewrite Hin, Hbtn, Hf by reflexivity. run_pure. auto.
  - rewrite Hin, Hbtn, Hf by reflexivity. run_pure. auto.
Qed.

Lemma run_shows_generation_error (model : GenerativeModel)
    (environ : Environ) (wd : Widgets) (uc : UseCase) (input msg : string) :
  dispatches wd uc input ->
  generation_raises model (environ "GEMINI_API_KEY") (build uc input) msg ->
  fst (run model environ wd) = Return tt /\
  results (ui (snd (run model environ wd))) =
    [(error_prefix uc ++ msg, error_prefix uc ++ msg)].
Proof.
  intros Hd Hgen.
  destruct (run_dispatches model environ wd uc input (error_prefix uc ++ msg) Hd)
    as (Hret & _ & Hres); [|now split].
  intros w Hkey. apply use_case_function_catches. now rewrite Hkey.
Qed.

Lemma run_extraction_error (model : GenerativeModel) (environ : Environ)
    (wd : Widgets) (file : UploadedFile) (msg : string) :
  option_choice wd = "Resume Feedback" ->
  uploaded_file wd = Some file ->
  analyze_button wd = true ->
  extraction_raises file msg ->
  run model environ wd =
    (Return tt,
     {| api_key := environ "GEMINI_API_KEY";
        gen_calls := [];
        ui := ui (snd (page_top initial_world)) ++
              [st_header "📄 Resume Analyzer";
               st_markdown "Upload your resume and get professional feedback to improve your chances!";
               st_success "✅ Resume uploaded successfully!";
               st_spinner "🤖 AI is analyzing your resume...";
               st_error ("Error reading PDF: " ++ msg)] ++
              ui (snd (page_bottom initial_world)) |}).
Proof.
  intros Hopt Hfile Hbtn Hraise.
  run_script. rewrite Hopt. run_pure.
  rewrite Hfile, Hbtn, (extract_text_from_pdf_error file msg _ Hraise).
  reflexivity.
Qed.

Lemma run_empty_text (model : GenerativeModel) (environ : Environ)
    (wd : Widgets) (file : UploadedFile) (texts : list string) :
  option_choice wd = "Resume Feedback" ->
  uploaded_file wd = Some file ->
  analyze_button wd = true ->
  well_formed file texts ->
  String.concat "" texts = "" ->
  run model environ wd =
    (Return tt,
     {| api_key := environ "GEMINI_API_KEY";
        gen_calls := [];
        ui := ui (snd (page_top initial_world)) ++
              [st_header "📄 Resume Analyzer";
               st_markdown "Upload your resume and get professional feedback to improve your chances!";
               st_success "✅ Resume uploaded successfully!";
               st_spinner "🤖 AI is analyzing your resume..."] ++
              ui (snd (page_bottom initial_world)) |}).
Proof.
  intros Hopt Hfile Hbtn Hwf Hempty.
  run_script. rewrite Hopt. run_pure.
  rewrite Hfile, Hbtn, (extract_text_from_pdf_ok file texts _ Hwf), Hempty.
  reflexivity.
Qed.

Lemma run_required_input_empty (model : GenerativeModel) (environ : Environ)
    (wd : Widgets) (uc : UseCase) :
  option_choice wd = service_label uc ->
  required_input_empty uc wd ->
  fst (run model environ wd) = Return tt /\
  gen_calls (snd (run model environ wd)) = [] /\
  results (ui (snd (run model environ wd))) = [].
Proof.
  intros Hopt Hempty.
  destruct uc; cbn in Hopt, Hempty; run_script; rewrite Hopt; run_pure;
    rewrite Hempty; run_pure; auto.
Qed.

Lemma is_substring_trans (a b c : string) :
  is_substring a b -> is_substring b c -> is_substring a c.
Proof. intros Hab (pre & post & ->). now apply is_substring_app. Qed.

Lemma interview_prompt_frame (domain : string) :
  mock_interview_prompt domain =
    interview_frame_head ++ domain ++ interview_frame_tail.
Proof. reflexivity. Qed.

(** ** The configured key *)

Lemma for_page_in_world (pages : list Page) :
  forall (acc : string) (w : World), snd (for_page_in pages acc w) = w.
Proof.
  induction pages as [|page pages IH]; intros acc w; [reflexivity|].
  cbn [for_page_in]. unfold bind, lift.
  destruct (extract_text page) as [t | e]; [apply IH | reflexivity].
Qed.

Lemma extract_text_from_pdf_key (file : UploadedFile) (w : World) :
  api_key (snd (extract_text_from_pdf file w)) = api_key w /\
  gen_calls (snd (extract_text_from_pdf file w)) = gen_calls w.
Proof.
  unfold extract_text_from_pdf, try_except, bind, lift.
  destruct (PdfReader file) as [pages | [msg | msg]]; try (split; reflexivity).
  pose proof (for_page_in_world pages "" w) as Hw.
  destruct (for_page_in pages "" w) as [[t | [msg | msg]] w']; cbn in Hw;
    subst w'; split; reflexivity.
Qed.

Lemma use_case_function_world (model : GenerativeModel) (uc : UseCase)
    (input : string) (w : World) :
  snd (use_case_function model uc input w) = log_call (build uc input) w.
Proof.
  destruct uc; cbn [use_case_function build];
    unfold get_resume_feedback, generate_roadmap, mock_interview,
      get_career_advice, try_except, bind, generate_content, lift, ret;
    destruct (model _ _) as [response | [msg | msg]];
    try destruct (text response) as [T | [msg | msg]]; reflexivity.
Qed.

(** A page that reached its use-case function leaves the key alone. *)
Ltac key_after_call model uc :=
  match goal with
  | |- context [use_case_function model uc ?i ?w] =>
      let Hw := fresh "Hw" in
      let w2 := fresh "w" in
      pose proof (use_case_function_world model uc i w) as Hw;
      destruct (use_case_function model uc i w) as [[? | ?] w2];
      cbn in Hw; subst w2; reflexivity
  end.

(** The key in force at the end of a run is the one [os.getenv] gave:
    nothing replaces an absent key by a default. *)
Lemma run_api_key (model : GenerativeModel) (environ : Environ)
    (wd : Widgets) :
  api_key (snd (run model environ wd)) = environ "GEMINI_API_KEY".
Proof.
  run_script.
  destruct (option_choice wd =? "Resume Feedback").
  { destruct (uploaded_file wd) as [file|];
      [destruct (analyze_button wd)|]; run_pure; try reflexivity.
    match goal with
    | |- context [extract_text_from_pdf file ?w] =>
        destruct (extract_text_from_pdf_key file w) as [Hk _];
        destruct (extract_text_from_pdf file w) as [[[t|] | e] w']
    end; cbn in Hk; run_pure; try exact Hk.
    destruct (truthy t); run_pure; [|exact Hk].
    rewrite <- Hk. change (get_resume_feedback model)
      with (use_case_function model ResumeFeedback).
    key_after_call model ResumeFeedback. }
  destruct (option_choice wd =? "Career Roadmap").
  { destruct (truthy (goal wd)); [destruct (roadmap_button wd)|];
      run_pure; try reflexivity.
    change (generate_roadmap model) with (use_case_function model CareerRoadmap).
    key_after_call model CareerRoadmap. }
  destruct (option_choice wd =? "Mock Interview").
  { destruct (truthy (domain wd)); [destruct (interview_button wd)|];
      run_pure; try reflexivity.
    change (mock_interview model) with (use_case_function model MockInterview).
    key_after_call model MockInterview. }
  destruct (option_choice wd =? "Career Advice").
  { destruct (truthy (question wd)); [destruct (advice_button wd)|];
      run_pure; try reflexivity.
    change (get_career_advice model) with (use_case_function model CareerAdvice).
    key_after_call model CareerAdvice. }
  reflexivity.
Qed.

Lemma no_request_without_credential (configuration_error : string)
    (remote : RemoteService) (prompts : list string) :
  flat_map
    (fun prompt =>
       snd (generation_client configuration_error remote None prompt))
    prompts = [].
Proof. induction prompts as [|p prompts IH]; [reflexivity | exact IH]. Qed.

(** ** The claims *)

(** C1. Whatever the use case and the input, when the remote generation
    call raises an [Exception] (from [generate_content] or from reading
    [response.text]), the use-case function raises nothing: it returns a
    string, which is not empty and embeds the description [str(e)] of the
    error after a fixed prefix. *)
Theorem C1_generation_error_returned (model : GenerativeModel)
    (uc : UseCase) (input msg : string) (w : World) :
  generation_raises model (api_key w) (build uc input) msg ->
  exists message,
    use_case_function model uc input w =
      (Return message, log_call (build uc input) w) /\
    message <> "" /\
    is_substring msg message /\
    message = error_prefix uc ++ msg.
Proof.
  intros Hgen. exists (error_prefix uc ++ msg). repeat split.
  - now apply use_case_function_catches.
  - apply error_prefix_nonempty.
  - exists (error_prefix uc), "". now rewrite append_nil_r.
Qed.

Lemma C1_witness :
  generation_raises (Examples.faults "503 Service Unavailable")
    (api_key initial_world)
    (build CareerAdvice "How do I negotiate salary?")
    "503 Service Unavailable" /\
  exists message,
    use_case_function (Examples.faults "503 Service Unavailable") CareerAdvice
      "How do I negotiate salary?" initial_world =
      (Return message,
       log_call (build CareerAdvice "How do I negotiate salary?") initial_world) /\
    message <> "" /\
    is_substring "503 Service Unavailable" message /\
    message = error_prefix CareerAdvice ++ "503 Service Unavailable".
Proof.
  assert (H : generation_raises (Examples.faults "503 Service Unavailable")
                (api_key initial_world)
                (build CareerAdvice "How do I negotiate salary?")
                "503 Service Unavailable") by (left; reflexivity).
  split; [exact H|].
  exact (C1_generation_error_returned _ CareerAdvice _ _ initial_world H).
Defined.

(** C2. Every prompt template contains the field value it is given,
    verbatim and in one piece; on the roadmap and interview pages the
    field is built from the typed text and the selected level or focus,
    and the prompt contains each of them verbatim too. *)
Theorem C2_prompt_contains_fields :
  (forall (uc : UseCase) (v : string), is_substring v (build uc v)) /\
  (forall goal level : string,
     is_substring goal (roadmap_prompt (roadmap_enhanced_prompt goal level)) /\
     is_substring level (roadmap_prompt (roadmap_enhanced_prompt goal level))) /\
  (forall domain focus : string,
     is_substring domain
       (mock_interview_prompt (interview_enhanced_prompt domain focus)) /\
     is_substring focus
       (mock_interview_prompt (interview_enhanced_prompt domain focus))).
Proof.
  split; [exact build_contains_field|].
  split; intros a b; split.
  - apply is_substring_trans with (roadmap_enhanced_prompt a b).
    + apply is_substring_head.
    + apply (build_contains_field CareerRoadmap).
  - apply is_substring_trans with (roadmap_enhanced_prompt a b).
    + exists (a ++ " (Current level: "), ")". unfold roadmap_enhanced_prompt.
      now rewrite append_assoc.
    + apply (build_contains_field CareerRoadmap).
  - apply is_substring_trans with (interview_enhanced_prompt a b).
    + apply is_substring_head.
    + apply (build_contains_field MockInterview).
  - apply is_substring_trans with (interview_enhanced_prompt a b).
    + exists (a ++ " - "), " focus". unfold interview_enhanced_prompt.
      now rewrite append_assoc.
    + apply (build_contains_field MockInterview).
Qed.

(** C3. On the Resume Feedback page, when the uploaded file is analysed
    and reading it raises, the run ends normally, the page shows the
    error message of the extraction, no feedback is shown and the model is
    never called. *)
Theorem C3_extraction_failure_short_circuits (model : GenerativeModel)
    (environ : Environ) (wd : Widgets) (file : UploadedFile) (msg : string) :
  option_choice wd = service_label ResumeFeedback ->
  uploaded_file wd = Some file ->
  analyze_button wd = true ->
  extraction_raises file msg ->
  fst (run model environ wd) = Return tt /\
  errors (ui (snd (run model environ wd))) = ["Error reading PDF: " ++ msg] /\
  results (ui (snd (run model environ wd))) = [] /\
  gen_calls (snd (run model environ wd)) = [].
Proof.
  intros Hopt Hfile Hbtn Hraise.
  rewrite (run_extraction_error model environ wd file msg Hopt Hfile Hbtn Hraise).
  cbn. auto.
Qed.

Lemma C3_witness :
  fst (run (Examples.answers "Looks good.") Examples.with_key
         (Examples.widgets "Resume Feedback" (Some Examples.corrupt) "" "")) =
    Return tt /\
  errors (ui (snd (run (Examples.answers "Looks good.") Examples.with_key
         (Examples.widgets "Resume Feedback" (Some Examples.corrupt) "" "")))) =
    ["Error reading PDF: EOF marker not found"] /\
  results (ui (snd (run (Examples.answers "Looks good.") Examples.with_key
         (Examples.widgets "Resume Feedback" (Some Examples.corrupt) "" "")))) =
    [] /\
  gen_calls (snd (run (Examples.answers "Looks good.") Examples.with_key
         (Examples.widgets "Resume Feedback" (Some Examples.corrupt) "" ""))) =
    [].
Proof.
  apply (C3_extraction_failure_short_circuits
           (Examples.answers "Looks good.") Examples.with_key
           (Examples.widgets "Resume Feedback" (Some Examples.corrupt) "" "")
           Examples.corrupt "EOF marker not found").
  - reflexivity.
  - reflexivity.
  - reflexivity.
  - apply reader_raises. reflexivity.
Defined.

(** C4. Whatever the use case, a run whose required input is empty (no
    file, empty goal, empty domain, empty question) ends normally without
    a single call to the model, and shows no result. *)
Theorem C4_empty_input_makes_no_call (model : GenerativeModel)
    (environ : Environ) (wd : Widgets) (uc : UseCase) :
  option_choice wd = service_label uc ->
  required_input_empty uc wd ->
  fst (run model environ wd) = Return tt /\
  gen_calls (snd (run model environ wd)) = [] /\
  results (ui (snd (run model environ wd))) = [].
Proof. apply run_required_input_empty. Qed.

Lemma C4_witness :
  fst (run (Examples.answers "A plan.") Examples.with_key
         (Examples.widgets "Career Roadmap" None "" "Beginner")) = Return tt /\
  gen_calls (snd (run (Examples.answers "A plan.") Examples.with_key
         (Examples.widgets "Career Roadmap" None "" "Beginner"))) = [] /\
  results (ui (snd (run (Examples.answers "A plan.") Examples.with_key
         (Examples.widgets "Career Roadmap" None "" "Beginner")))) = [].
Proof.
  apply (C4_empty_input_makes_no_call (Examples.answers "A plan.")
           Examples.with_key
           (Examples.widgets "Career Roadmap" None "" "Beginner")
           CareerRoadmap).
  - reflexivity.
  - reflexivity.
Defined.

(** C5. For a file all of whose pages are read, [extract_text_from_pdf]
    returns the texts of the pages joined in page order with nothing
    between them, and writes nothing to the page. *)
Theorem C5_extract_concatenates_pages (file : UploadedFile)
    (texts : list string) (w : World) :
  well_formed file texts ->
  extract_text_from_pdf file w = (Return (Some (String.concat "" texts)), w).
Proof. apply extract_text_from_pdf_ok. Qed.

Lemma C5_witness :
  well_formed Examples.two_pages ["Jane Doe"; "Skills: Rocq"] /\
  extract_text_from_pdf Examples.two_pages initial_world =
    (Return (Some "Jane DoeSkills: Rocq"), initial_world).
Proof.
  assert (H : well_formed Examples.two_pages ["Jane Doe"; "Skills: Rocq"]).
  { eexists. split; reflexivity. }
  split; [exact H|].
  exact (C5_extract_concatenates_pages Examples.two_pages
           ["Jane Doe"; "Skills: Rocq"] initial_world H).
Defined.

(** C6. When reading the file raises, at the reader or at a page after
    some pages were read, [extract_text_from_pdf] raises nothing, returns
    [None] and shows the diagnostic message; it never returns the text of
    the pages read before the error. *)
Theorem C6_extraction_error_no_partial_text (file : UploadedFile)
    (msg : string) (w : World) :
  extraction_raises file msg ->
  extract_text_from_pdf file w =
    (Return None, log_ui (st_error ("Error reading PDF: " ++ msg)) w) /\
  forall partial : string,
    fst (extract_text_from_pdf file w) <> Return (Some partial).
Proof.
  intros Hraise. rewrite (extract_text_from_pdf_error file msg w Hraise).
  split; [reflexivity | discriminate].
Qed.

Lemma C6_witness :
  extraction_raises Examples.torn "unsupported encoding" /\
  extract_text_from_pdf Examples.torn initial_world =
    (Return None,
     log_ui (st_error "Error reading PDF: unsupported encoding") initial_world) /\
  forall partial : string,
    fst (extract_text_from_pdf Examples.torn initial_world) <>
      Return (Some partial).
Proof.
  assert (H : extraction_raises Examples.torn "unsupported encoding").
  { apply (page_raises Examples.torn "unsupported encoding"
             [Examples.page_of "Jane Doe"] ["Jane Doe"]
             {| extract_text := Raise (Exception "unsupported encoding") |} []);
      reflexivity. }
  split; [exact H|].
  exact (C6_extraction_error_no_partial_text Examples.torn
           "unsupported encoding" initial_world H).
Defined.

(** C7. With no [GEMINI_API_KEY] in the environment the script hands the
    absent key to the client unchanged, so that no run sends a request to
    the remote service; and when a use case is dispatched, the client's
    configuration error comes back as the failure text of the use-case
    function, which the run shows as its result without raising. *)
Theorem C7_absent_credential_no_request (configuration_error : string)
    (remote : RemoteService) (environ : Environ) (wd : Widgets) :
  environ "GEMINI_API_KEY" = None ->
  requests_sent configuration_error remote
    (snd (run (client_model configuration_error remote) environ wd)) = [] /\
  forall (uc : UseCase) (input : string),
    dispatches wd uc input ->
    fst (run (client_model configuration_error remote) environ wd) =
      Return tt /\
    results (ui (snd (run (client_model configuration_error remote)
                        environ wd))) =
      [(error_prefix uc ++ configuration_error,
        error_prefix uc ++ configuration_error)].
Proof.
  intros Hkey. split.
  - unfold requests_sent. rewrite run_api_key, Hkey.
    apply no_request_without_credential.
  - intros uc input Hd. apply (run_shows_generation_error _ _ _ _ input); [exact Hd|].
    left. rewrite Hkey. reflexivity.
Qed.

Lemma C7_witness :
  requests_sent "No API key configured"
    (Examples.remote_answers "Negotiate from data.")
    (snd (run (client_model "No API key configured"
                 (Examples.remote_answers "Negotiate from data."))
            Examples.without_key
            (Examples.widgets "Career Advice" None
               "How do I negotiate salary?" ""))) = [] /\
  fst (run (client_model "No API key configured"
              (Examples.remote_answers "Negotiate from data."))
         Examples.without_key
         (Examples.widgets "Career Advice" None
            "How do I negotiate salary?" "")) = Return tt /\
  results (ui (snd (run (client_model "No API key configured"
                           (Examples.remote_answers "Negotiate from data."))
                      Examples.without_key
                      (Examples.widgets "Career Advice" None
                         "How do I negotiate salary?" "")))) =
    [("Error generating advice: No API key configured",
      "Error generating advice: No API key configured")].
Proof.
  destruct (C7_absent_credential_no_request "No API key configured"
              (Examples.remote_answers "Negotiate from data.")
              Examples.without_key
              (Examples.widgets "Career Advice" None
                 "How do I negotiate salary?" "")
              eq_refl) as [Hnone Hfail].
  split; [exact Hnone|].
  apply (Hfail CareerAdvice "How do I negotiate salary?").
  apply dispatches_career_advice; reflexivity.
Defined.

(** C8. Whatever the use case, when the run reaches its use-case function
    and the model returns the text [T], the function returns [T] itself,
    the run ends normally after that one call, and the only result on the
    page is [T], both as the rendered text and as the data of the
    download button. *)
Theorem C8_generated_text_unmodified (model : GenerativeModel)
    (environ : Environ) (wd : Widgets) (uc : UseCase) (input T : string) :
  dispatches wd uc input ->
  generation_returns model (environ "GEMINI_API_KEY") (build uc input) T ->
  (forall w : World,
     api_key w = environ "GEMINI_API_KEY" ->
     use_case_function model uc input w =
       (Return T, log_call (build uc input) w)) /\
  fst (run model environ wd) = Return tt /\
  gen_calls (snd (run model environ wd)) = [build uc input] /\
  results (ui (snd (run model environ wd))) = [(T, T)].
Proof.
  intros Hd Hgen.
  assert (Hf : forall w : World,
             api_key w = environ "GEMINI_API_KEY" ->
             use_case_function model uc input w =
               (Return T, log_call (build uc input) w)).
  { intros w Hkey. apply use_case_function_returns. now rewrite Hkey. }
  split; [exact Hf|].
  exact (run_dispatches model environ wd uc input T Hd Hf).
Qed.

Lemma C8_witness :
  (forall w : World,
     api_key w = Examples.with_key "GEMINI_API_KEY" ->
     use_case_function (Examples.answers "Negotiate from data.") CareerAdvice
       "How do I negotiate salary?" w =
       (Return "Negotiate from data.",
        log_call (build CareerAdvice "How do I negotiate salary?") w)) /\
  fst (run (Examples.answers "Negotiate from data.") Examples.with_key
         (Examples.widgets "Career Advice" None
            "How do I negotiate salary?" "")) = Return tt /\
  gen_calls (snd (run (Examples.answers "Negotiate from data.")
         Examples.with_key
         (Examples.widgets "Career Advice" None
            "How do I negotiate salary?" ""))) =
    [build CareerAdvice "How do I negotiate salary?"] /\
  results (ui (snd (run (Examples.answers "Negotiate from data.")
         Examples.with_key
         (Examples.widgets "Career Advice" None
            "How do I negotiate salary?" "")))) =
    [("Negotiate from data.", "Negotiate from data.")].
Proof.
  apply (C8_generated_text_unmodified
           (Examples.answers "Negotiate from data.") Examples.with_key
           (Examples.widgets "Career Advice" None
              "How do I negotiate salary?" "")
           CareerAdvice "How do I negotiate salary?" "Negotiate from data.").
  - apply dispatches_career_advice; reflexivity.
  - eexists. split; reflexivity.
Defined.

(** C9. On the Resume Feedback page, when the uploaded file is read
    without error but its pages hold no character at all, the run does
    what it does after a failed extraction as far as the model and the
    feedback go: no call to the model, no result on the page. *)
Theorem C9_empty_text_makes_no_call (model : GenerativeModel)
    (environ : Environ) (wd : Widgets) (file : UploadedFile)
    (texts : list string) :
  option_choice wd = service_label ResumeFeedback ->
  uploaded_file wd = Some file ->
  analyze_button wd = true ->
  well_formed file texts ->
  String.concat "" texts = "" ->
  fst (run model environ wd) = Return tt /\
  gen_calls (snd (run model environ wd)) = [] /\
  results (ui (snd (run model environ wd))) = [].
Proof.
  intros Hopt Hfile Hbtn Hwf Hempty.
  rewrite (run_empty_text model environ wd file texts Hopt Hfile Hbtn Hwf Hempty).
  cbn. auto.
Qed.

Lemma C9_witness :
  fst (run (Examples.answers "Looks good.") Examples.with_key
         (Examples.widgets "Resume Feedback" (Some Examples.scanned) "" "")) =
    Return tt /\
  gen_calls (snd (run (Examples.answers "Looks good.") Examples.with_key
         (Examples.widgets "Resume Feedback" (Some Examples.scanned) "" ""))) =
    [] /\
  results (ui (snd (run (Examples.answers "Looks good.") Examples.with_key
         (Examples.widgets "Resume Feedback" (Some Examples.scanned) "" "")))) =
    [].
Proof.
  apply (C9_empty_text_makes_no_call
           (Examples.answers "Looks good.") Examples.with_key
           (Examples.widgets "Resume Feedback" (Some Examples.scanned) "" "")
           Examples.scanned [""; ""]).
  - reflexivity.
  - reflexivity.
  - reflexivity.
  - eexists. split; reflexivity.
  - reflexivity.
Defined.

(** C10. Whatever the domain and the selected focus, the interview prompt
    is one fixed frame around the text [domain - focus focus]: the frame
    does not depend on either, its tail asks for 5 technical questions, 2
    behavioral questions and 1 scenario-based question, and that prompt is
    the one the Mock Interview page sends. *)
Theorem C10_interview_counts_fixed :
  (forall domain focus : string,
     mock_interview_prompt (interview_enhanced_prompt domain focus) =
       interview_frame_head ++ domain ++ " - " ++ focus ++ " focus" ++
       interview_frame_tail) /\
  is_substring requested_questions interview_frame_tail /\
  (forall (model : GenerativeModel) (environ : Environ) (c : ascii)
          (domain focus : string),
     gen_calls (snd (run model environ
        (Examples.widgets "Mock Interview" None (String c domain) focus))) =
       [interview_frame_head ++ String c domain ++ " - " ++ focus ++ " focus" ++
        interview_frame_tail]).
Proof.
  assert (Hframe : forall domain focus : string,
             mock_interview_prompt (interview_enhanced_prompt domain focus) =
               interview_frame_head ++ domain ++ " - " ++ focus ++ " focus" ++
               interview_frame_tail).
  { intros domain focus. rewrite interview_prompt_frame.
    unfold interview_enhanced_prompt. now rewrite !append_assoc. }
  split; [exact Hframe|]. split.
  - apply contains_sound. reflexivity.
  - intros model environ c domain focus. rewrite <- Hframe.
    run_script. run_pure.
    unfold mock_interview, try_except, bind, generate_content, lift, ret.
    cbn -[mock_interview_prompt interview_enhanced_prompt].
    destruct (model _ _) as [response | [m | m]];
      [destruct (text response) as [T | [m | m]]| |]; reflexivity.
Qed.

(** ** Every outcome of the parts *)

Lemma pages_read_or_raise (pages : list Page) :
  (exists texts, map extract_text pages = map Return texts) \/
  (exists read texts bad rest e,
     pages = (read ++ bad :: rest)%list /\
     map extract_text read = map Return texts /\
     extract_text bad = Raise e).
Proof.
  induction pages as [|page pages IH].
  - left. exists []. reflexivity.
  - destruct (extract_text page) as [t|e] eqn:Hpage.
    + destruct IH as [(texts & Hall) | (read & texts & bad & rest & e & -> & Hread & Hbad)].
      * left. exists (t :: texts). cbn. now rewrite Hpage, Hall.
      * right. exists (page :: read), (t :: texts), bad, rest, e.
        cbn. now rewrite Hpage, Hread.
    + right. exists [], [], page, pages, e. auto.
Qed.

(** What [extract_text_from_pdf] does, for every file. *)
Lemma extract_text_from_pdf_cases (file : UploadedFile) (w : World) :
  (exists texts,
     well_formed file texts /\
     extract_text_from_pdf file w = (Return (Some (String.concat "" texts)), w)) \/
  (exists msg,
     extraction_raises file msg /\
     extract_text_from_pdf file w =
       (Return None, log_ui (st_error ("Error reading PDF: " ++ msg)) w)) \/
  (exists msg,
     extract_text_from_pdf file w = (Raise (BaseException msg), w)).
Proof.
  destruct (PdfReader file) as [pages | [msg | msg]] eqn:Hreader.
  - destruct (pages_read_or_raise pages)
      as [(texts & Hall) | (read & texts & bad & rest & e & -> & Hread & Hbad)].
    + left. exists texts.
      assert (Hwf : well_formed file texts) by (exists pages; auto).
      split; [exact Hwf | now apply extract_text_from_pdf_ok].
    + destruct e as [msg | msg].
      * right. left. exists msg.
        assert (Hraise : extraction_raises file msg)
          by (apply (page_raises file msg read texts bad rest); assumption).
        split; [exact Hraise | now apply extract_text_from_pdf_error].
      * right. right. exists msg.
        unfold extract_text_from_pdf, try_except, bind, lift.
        rewrite Hreader.
        now rewrite (for_page_in_raises read texts bad rest _ "" w Hread Hbad).
  - right. left. exists msg.
    assert (Hraise : extraction_raises file msg) by now apply reader_raises.
    split; [exact Hraise | now apply extract_text_from_pdf_error].
  - right. right. exists msg. now apply extract_text_from_pdf_base_exception.
Qed.

(** What a use-case function does, for every model. *)
Lemma use_case_function_cases (model : GenerativeModel) (uc : UseCase)
    (input : string) (w : World) :
  (exists result,
     use_case_function model uc input w =
       (Return result, log_call (build uc input) w)) \/
  (exists msg,
     use_case_function model uc input w =
       (Raise (BaseException msg), log_call (build uc input) w)).
Proof.
  destruct (model (api_key w) (build uc input)) as [response | [msg | msg]] eqn:Hgen;
    [destruct (text response) as [T | [msg | msg]] eqn:Htext | |].
  - left. exists T. apply use_case_function_returns. now exists response.
  - left. exists (error_prefix uc ++ msg). apply use_case_function_catches.
    right. now exists response.
  - right. exists msg.
    destruct uc; cbn [use_case_function build] in *;
      unfold get_resume_feedback, generate_roadmap, mock_interview,
        get_career_advice, try_except, bind, generate_content, lift;
      rewrite Hgen, Htext; reflexivity.
  - left. exists (error_prefix uc ++ msg). apply use_case_function_catches.
    now left.
  - right. exists msg.
    destruct uc; cbn [use_case_function build] in *;
      unfold get_resume_feedback, generate_roadmap, mock_interview,
        get_career_advice, try_except, bind, generate_content, lift;
      rewrite Hgen; reflexivity.
Qed.

(** ** Every outcome of a run *)

Ltac split_use_case_at model uc i w :=
  let Hf := fresh "Hf" in
  destruct (use_case_function_cases model uc i w) as [[? Hf] | [? Hf]];
  cbn [use_case_function] in Hf; rewrite Hf; run_pure.

(** Splits a run on the use-case function reached in the goal. *)
Ltac split_use_case model uc :=
  match goal with
  | |- context [get_resume_feedback model ?i ?w] => split_use_case_at model uc i w
  | |- context [generate_roadmap model ?i ?w] => split_use_case_at model uc i w
  | |- context [mock_interview model ?i ?w] => split_use_case_at model uc i w
  | |- context [get_career_advice model ?i ?w] => split_use_case_at model uc i w
  end.

Lemma use_case_function_key (model : GenerativeModel) (uc : UseCase)
    (input : string) (w w' : World) :
  api_key w = api_key w' ->
  fst (use_case_function model uc input w) =
  fst (use_case_function model uc input w').
Proof.
  intros Hkey.
  destruct uc; cbn [use_case_function];
    unfold get_resume_feedback, generate_roadmap, mock_interview,
      get_career_advice, try_except, bind, generate_content, lift;
    rewrite Hkey;
    destruct (model _ _) as [response | [msg | msg]];
    try destruct (text response) as [T | [msg | msg]]; reflexivity.
Qed.

Lemma map_Return_inj (A : Type) (xs ys : list A) :
  map (@Return A) xs = map (@Return A) ys -> xs = ys.
Proof.
  revert ys. induction xs as [|x xs IH]; intros [|y ys] H;
    try discriminate; [reflexivity|].
  injection H as -> H. now rewrite (IH ys H).
Qed.

Lemma well_formed_unique (file : UploadedFile) (texts texts' : list string) :
  well_formed file texts -> well_formed file texts' -> texts = texts'.
Proof.
  intros (pages & Hr & Hp) (pages' & Hr' & Hp').
  rewrite Hr in Hr'. injection Hr' as <-.
  apply map_Return_inj. now rewrite <- Hp, <- Hp'.
Qed.

Lemma well_formed_not_raises (file : UploadedFile) (texts : list string)
    (msg : string) :
  well_formed file texts -> extraction_raises file msg -> False.
Proof.
  intros Hwf Hraise.
  pose proof (extract_text_from_pdf_ok file texts initial_world Hwf) as Hok.
  rewrite (extract_text_from_pdf_error file msg initial_world Hraise) in Hok.
  discriminate.
Qed.

(** Closes the goal that the widgets dispatch nothing, from the facts the
    case split left in the context. *)
Ltac no_dispatch :=
  let Hd := fresh "Hd" in
  intros ? ? Hd; destruct Hd; congruence.

(** The outcome of a page that reached its use-case function. *)
Ltac after_call uc input :=
  match goal with
  | Hf : _ = (Return ?result, _) |- _ =>
      right; left; exists uc, input, result;
      repeat split; auto;
      erewrite use_case_function_key;
      [cbn [use_case_function]; now rewrite Hf | reflexivity]
  | Hf : _ = (Raise (BaseException ?m), _) |- _ =>
      right; right; exists m; repeat split;
      right; exists uc, input; repeat split; auto;
      erewrite use_case_function_key;
      [cbn [use_case_function]; now rewrite Hf | reflexivity]
  end.

(** The three ways a run can go: no call; one call whose result is shown;
    stopped by an exception that is not an [Exception]. *)
Lemma run_cases (model : GenerativeModel) (environ : Environ) (wd : Widgets) :
  (fst (run model environ wd) = Return tt /\
   gen_calls (snd (run model environ wd)) = [] /\
   results (ui (snd (run model environ wd))) = [] /\
   download_names (ui (snd (run model environ wd))) = [] /\
   (forall uc input, ~ dispatches wd uc input)) \/
  (exists uc input result,
     dispatches wd uc input /\
     fst (use_case_function model uc input
            (set_api_key (environ "GEMINI_API_KEY") initial_world)) =
       Return result /\
     fst (run model environ wd) = Return tt /\
     gen_calls (snd (run model environ wd)) = [build uc input] /\
     results (ui (snd (run model environ wd))) = [(result, result)] /\
     errors (ui (snd (run model environ wd))) = [] /\
     download_names (ui (snd (run model environ wd))) = [download_name uc wd]) \/
  (exists msg,
     fst (run model environ wd) = Raise (BaseException msg) /\
     results (ui (snd (run model environ wd))) = [] /\
     download_names (ui (snd (run model environ wd))) = [] /\
     (gen_calls (snd (run model environ wd)) = [] /\
      (forall uc input, ~ dispatches wd uc input) \/
      exists uc input,
        dispatches wd uc input /\
        gen_calls (snd (run model environ wd)) = [build uc input] /\
        fst (use_case_function model uc input
               (set_api_key (environ "GEMINI_API_KEY") initial_world)) =
          Raise (BaseException msg))).
Proof.
  run_script.
  destruct (option_choice wd =? "Resume Feedback") eqn:Hopt1.
  { apply String.eqb_eq in Hopt1.
    destruct (uploaded_file wd) as [file|] eqn:Hfile;
      [destruct (analyze_button wd) eqn:Hbtn|]; run_pure.
    - match goal with
      | |- context [extract_text_from_pdf file ?w] =>
          destruct (extract_text_from_pdf_cases file w)
            as [(texts & Hwf & Hx) | [(msg & Hraise & Hx) | (msg & Hx)]]
      end; rewrite Hx; run_pure.
      + assert (Hd : truthy (String.concat "" texts) = true ->
                     dispatches wd ResumeFeedback (String.concat "" texts))
          by (intros Ht; now apply (dispatches_resume_feedback wd file texts)).
        destruct (truthy (String.concat "" texts)) eqn:Htext; run_pure.
        * specialize (Hd eq_refl).
          split_use_case model ResumeFeedback;
            after_call ResumeFeedback (String.concat "" texts).
        * left. repeat split. intros uc input Hd'.
          destruct Hd' as [file' texts' _ Hfile' _ Hwf' Htext' | Ho _ _ | Ho _ _ | Ho _ _];
            try congruence.
          assert (file' = file) as -> by congruence.
          rewrite (well_formed_unique file texts' texts Hwf' Hwf) in Htext'.
          congruence.
      + left. repeat split. intros uc input Hd'.
        destruct Hd' as [file' texts' _ Hfile' _ Hwf' _ | Ho _ _ | Ho _ _ | Ho _ _];
          try congruence.
        assert (file' = file) as -> by congruence.
        exact (well_formed_not_raises file texts' msg Hwf' Hraise).
      + right. right. exists msg. repeat split. left. split; [reflexivity|].
        intros uc input Hd'.
        destruct Hd' as [file' texts' _ Hfile' _ Hwf' _ | Ho _ _ | Ho _ _ | Ho _ _];
          try congruence.
        assert (file' = file) as -> by congruence.
        rewrite (extract_text_from_pdf_ok file texts' _ Hwf') in Hx.
        discriminate.
    - left. repeat split. no_dispatch.
    - left. repeat split. no_dispatch. }
  apply String.eqb_neq in Hopt1.
  destruct (option_choice wd =? "Career Roadmap") eqn:Hopt2.
  { apply String.eqb_eq in Hopt2.
    destruct (truthy (goal wd)) eqn:Hin;
      [destruct (roadmap_button wd) eqn:Hbtn|]; run_pure.
    - pose proof (dispatches_career_roadmap wd Hopt2 Hin Hbtn) as Hd.
      split_use_case model CareerRoadmap;
        after_call CareerRoadmap
          (roadmap_enhanced_prompt (goal wd) (experience_level wd)).
    - left. repeat split. no_dispatch.
    - left. repeat split. no_dispatch. }
  apply String.eqb_neq in Hopt2.
  destruct (option_choice wd =? "Mock Interview") eqn:Hopt3.
  { apply String.eqb_eq in Hopt3.
    destruct (truthy (domain wd)) eqn:Hin;
      [destruct (interview_button wd) eqn:Hbtn|]; run_pure.
    - pose proof (dispatches_mock_interview wd Hopt3 Hin Hbtn) as Hd.
      split_use_case model MockInterview;
        after_call MockInterview
          (interview_enhanced_prompt (domain wd) (interview_type wd)).
    - left. repeat split. no_dispatch.
    - left. repeat split. no_dispatch. }
  apply String.eqb_neq in Hopt3.
  destruct (option_choice wd =? "Career Advice") eqn:Hopt4.
  { apply String.eqb_eq in Hopt4.
    destruct (truthy (question wd)) eqn:Hin;
      [destruct (advice_button wd) eqn:Hbtn|]; run_pure.
    - pose proof (dispatches_career_advice wd Hopt4 Hin Hbtn) as Hd.
      split_use_case model CareerAdvice; after_call CareerAdvice (question wd).
    - left. repeat split. no_dispatch.
    - left. repeat split. no_dispatch. }
  apply String.eqb_neq in Hopt4.
  run_pure. left. repeat split. no_dispatch.
Qed.

Lemma dispatches_unique (wd : Widgets) (uc uc' : UseCase)
    (input input' : string) :
  dispatches wd uc input -> dispatches wd uc' input' ->
  uc = uc' /\ input = input'.
Proof.
  intros Hd Hd'.
  destruct Hd as [file texts Ho Hfile _ Hwf _ | Ho _ _ | Ho _ _ | Ho _ _];
    destruct Hd' as [file' texts' Ho' Hfile' _ Hwf' _ | Ho' _ _ | Ho' _ _ | Ho' _ _];
    try congruence; try (split; reflexivity).
  assert (file' = file) as -> by congruence.
  now rewrite (well_formed_unique file texts texts' Hwf Hwf').
Qed.

Lemma dispatches_label (wd : Widgets) (uc : UseCase) (input : string) :
  dispatches wd uc input -> option_choice wd = service_label uc.
Proof. now intros []. Qed.

(** With a credential the client does send the request of a dispatched
    use case: exactly one, the prompt of that use case. *)
Lemma request_sent_with_credential (configuration_error credential : string)
    (remote : RemoteService) (environ : Environ) (wd : Widgets)
    (uc : UseCase) (input : string) :
  environ "GEMINI_API_KEY" = Some credential ->
  dispatches wd uc input ->
  requests_sent configuration_error remote
    (snd (run (client_model configuration_error remote) environ wd)) =
    [build uc input].
Proof.
  intros Hkey Hd. unfold requests_sent. rewrite run_api_key, Hkey.
  destruct (run_cases (client_model configuration_error remote) environ wd)
    as [(_ & _ & _ & _ & Hno) | [(uc' & input' & result & Hd' & _ & _ & Hc & _)
       | (msg & _ & _ & _ & [(_ & Hno) | (uc' & input' & Hd' & Hc & _)])]].
  - destruct (Hno _ _ Hd).
  - destruct (dispatches_unique _ _ _ _ _ Hd Hd') as [<- <-].
    rewrite Hc. reflexivity.
  - destruct (Hno _ _ Hd).
  - destruct (dispatches_unique _ _ _ _ _ Hd Hd') as [<- <-].
    rewrite Hc. reflexivity.
Qed.

(** ** Further properties *)

(** X1. Whatever the widgets, the model and the environment, a run calls
    the model at most once and shows at most one result, and it shows a
    result only when it has called the model. *)
Theorem X1_at_most_one_call (model : GenerativeModel) (environ : Environ)
    (wd : Widgets) :
  length (gen_calls (snd (run model environ wd))) <= 1 /\
  length (results (ui (snd (run model environ wd)))) <=
    length (gen_calls (snd (run model environ wd))).
Proof.
  destruct (run_cases model environ wd)
    as [(_ & Hc & Hr & _) | [(uc & input & result & _ & _ & _ & Hc & Hr & _)
       | (msg & _ & Hr & _ & [(Hc & _) | (uc & input & _ & Hc & _)])]];
    rewrite Hc, Hr; cbn; repeat constructor.
Qed.

(** X2. Whatever the run, every download button it shows comes directly
    after an [st.markdown], and its data is the text rendered there,
    character for character: the results of the run are its download
    buttons, each paired with itself.  This covers the error texts of the
    use-case functions too. *)
Theorem X2_download_is_rendered_text (model : GenerativeModel)
    (environ : Environ) (wd : Widgets) :
  results (ui (snd (run model environ wd))) =
    map (fun data => (data, data))
      (download_data (ui (snd (run model environ wd)))).
Proof.
  run_script.
  destruct (option_choice wd =? "Resume Feedback").
  { destruct (uploaded_file wd) as [file|];
      [destruct (analyze_button wd)|]; run_pure; try reflexivity.
    match goal with
    | |- context [extract_text_from_pdf file ?w] =>
        destruct (extract_text_from_pdf_cases file w)
          as [(texts & _ & Hx) | [(msg & _ & Hx) | (msg & Hx)]]
    end; rewrite Hx; run_pure; try reflexivity.
    destruct (truthy (String.concat "" texts)); run_pure;
      [split_use_case model ResumeFeedback|]; reflexivity. }
  destruct (option_choice wd =? "Career Roadmap").
  { destruct (truthy (goal wd)); [destruct (roadmap_button wd)|]; run_pure;
      [split_use_case model CareerRoadmap| |]; reflexivity. }
  destruct (option_choice wd =? "Mock Interview").
  { destruct (truthy (domain wd)); [destruct (interview_button wd)|]; run_pure;
      [split_use_case model MockInterview| |]; reflexivity. }
  destruct (option_choice wd =? "Career Advice").
  { destruct (truthy (question wd)); [destruct (advice_button wd)|]; run_pure;
      [split_use_case model CareerAdvice| |]; reflexivity. }
  reflexivity.
Qed.

(** X3. No [Exception] leaves a run: it ends normally, or it is stopped by
    an exception that is not an [Exception] (which [except Exception] does
    not catch). *)
Theorem X3_no_exception_escapes (model : GenerativeModel) (environ : Environ)
    (wd : Widgets) :
  fst (run model environ wd) = Return tt \/
  exists msg, fst (run model environ wd) = Raise (BaseException msg).
Proof.
  destruct (run_cases model environ wd)
    as [(Hret & _) | [(uc & input & result & _ & _ & Hret & _)
       | (msg & Hret & _)]]; eauto.
Qed.

(** X4. A prompt reaches the model exactly when the widgets dispatch a use
    case: its service is selected, its input is present, its button is
    clicked and, for a résumé, the file is read to a non-empty text; the
    prompt is then the template of that use case around that input. *)
Theorem X4_call_iff_dispatched (model : GenerativeModel) (environ : Environ)
    (wd : Widgets) (prompt : string) :
  In prompt (gen_calls (snd (run model environ wd))) <->
  exists uc input,
    dispatches wd uc input /\
    option_choice wd = service_label uc /\
    prompt = build uc input.
Proof.
  destruct (run_cases model environ wd)
    as [(_ & Hc & _ & _ & Hno) | [(uc & input & result & Hd & _ & _ & Hc & _)
       | (msg & _ & _ & _ & [(Hc & Hno) | (uc & input & Hd & Hc & _)])]];
    rewrite Hc; cbn; split.
  - contradiction.
  - intros (uc & input & Hd & _). exact (Hno uc input Hd).
  - intros [<- | []]. exists uc, input.
    split; [exact Hd|]. split; [exact (dispatches_label _ _ _ Hd) | reflexivity].
  - intros (uc' & input' & Hd' & _ & ->).
    destruct (dispatches_unique _ _ _ _ _ Hd Hd') as [<- <-]. now left.
  - contradiction.
  - intros (uc & input & Hd & _). exact (Hno uc input Hd).
  - intros [<- | []]. exists uc, input.
    split; [exact Hd|]. split; [exact (dispatches_label _ _ _ Hd) | reflexivity].
  - intros (uc' & input' & Hd' & _ & ->).
    destruct (dispatches_unique _ _ _ _ _ Hd Hd') as [<- <-]. now left.
Qed.

Lemma X4_witness :
  exists uc input,
    dispatches (Examples.widgets "Mock Interview" None "Data Analyst"
                  "Technical Only") uc input /\
    option_choice (Examples.widgets "Mock Interview" None "Data Analyst"
                     "Technical Only") = service_label uc /\
    mock_interview_prompt "Data Analyst - Technical Only focus" = build uc input.
Proof.
  apply (proj1 (X4_call_iff_dispatched (Examples.answers "Q1 ...")
                  Examples.with_key
                  (Examples.widgets "Mock Interview" None "Data Analyst"
                     "Technical Only")
                  (mock_interview_prompt "Data Analyst - Technical Only focus"))).
  left. reflexivity.
Defined.



(** X6. A run reads only the widgets of the selected page: two widget
    states that select the same service and agree on the widgets of its
    page give the same run, whatever the widgets of the other pages
    hold. *)
Theorem X6_other_pages_ignored (model : GenerativeModel) (environ : Environ)
    (wd wd' : Widgets) (uc : UseCase) :
  option_choice wd = service_label uc ->
  option_choice wd' = service_label uc ->
  same_page_inputs uc wd wd' ->
  run model environ wd = run model environ wd'.
Proof.
  intros Hopt Hopt' Hsame.
  destruct uc; cbn in Hopt, Hopt', Hsame; run_script;
    rewrite Hopt, Hopt'; run_pure.
  - destruct Hsame as [Hfile Hbtn]. rewrite Hfile, Hbtn. reflexivity.
  - destruct Hsame as (Hgoal & Hlevel & Hbtn).
    rewrite Hgoal, Hlevel, Hbtn. reflexivity.
  - destruct Hsame as (Hdomain & Htype & Hbtn).
    rewrite Hdomain, Htype, Hbtn. reflexivity.
  - destruct Hsame as [Hq Hbtn]. rewrite Hq, Hbtn. reflexivity.
Qed.

Lemma X6_witness :
  run (Examples.answers "Negotiate from data.") Examples.with_key
    (Examples.widgets "Career Advice" None "How do I negotiate salary?" "") =
  run (Examples.answers "Negotiate from data.") Examples.with_key
    (Cases.advice_with_leftovers "How do I negotiate salary?").
Proof.
  apply (X6_other_pages_ignored (Examples.answers "Negotiate from data.")
           Examples.with_key
           (Examples.widgets "Career Advice" None "How do I negotiate salary?" "")
           (Cases.advice_with_leftovers "How do I negotiate salary?")
           CareerAdvice).
  - reflexivity.
  - reflexivity.
  - split; reflexivity.
Defined.

(** X8. For every file [extract_text_from_pdf] does one of three things
    and nothing else: it returns the joined text of a file all of whose
    pages were read and leaves the page alone; or it returns [None] and
    shows one error, the message of the [Exception] that stopped the
    reading; or it lets through an exception that is not an [Exception],
    showing nothing.  It never calls the model. *)
Theorem X8_extract_outcomes (file : UploadedFile) (w : World) :
  (exists texts,
     well_formed file texts /\
     extract_text_from_pdf file w = (Return (Some (String.concat "" texts)), w)) \/
  (exists msg,
     extraction_raises file msg /\
     extract_text_from_pdf file w =
       (Return None, log_ui (st_error ("Error reading PDF: " ++ msg)) w)) \/
  (exists msg,
     extract_text_from_pdf file w = (Raise (BaseException msg), w)).
Proof. apply extract_text_from_pdf_cases. Qed.

Lemma concat_empty (texts : list string) :
  String.concat "" texts = "" <-> forall t, In t texts -> t = "".
Proof.
  induction texts as [|x xs IH].
  - split; [intros _ t [] | reflexivity].
  - rewrite concat_cons. split.
    + intros H. destruct x as [|c x]; [|discriminate].
      intros t [<- | Hin]; [reflexivity | now apply IH].
    + intros H. rewrite (H x (or_introl eq_refl)). apply IH.
      intros t Hin. apply H. now right.
Qed.

Lemma truthy_false (s : string) : truthy s = false <-> s = "".
Proof. destruct s; split; intros H; try discriminate; reflexivity. Qed.

(** X9. On the Resume Feedback page, with the button clicked and a file
    all of whose pages are read, the model is called when at least one
    page has text, with the template around the joined text, and is not
    called when every page is empty. *)
Theorem X9_resume_needs_some_text (model : GenerativeModel)
    (environ : Environ) (wd : Widgets) (file : UploadedFile)
    (texts : list string) :
  option_choice wd = service_label ResumeFeedback ->
  uploaded_file wd = Some file ->
  analyze_button wd = true ->
  well_formed file texts ->
  ((exists t, In t texts /\ t <> "") /\
   gen_calls (snd (run model environ wd)) =
     [resume_feedback_prompt (String.concat "" texts)]) \/
  ((forall t, In t texts -> t = "") /\
   gen_calls (snd (run model environ wd)) = []).
Proof.
  intros Hopt Hfile Hbtn Hwf.
  destruct (truthy (String.concat "" texts)) eqn:Htext.
  - left. split.
    + clear - Htext. induction texts as [|x xs IH]; [discriminate|].
      destruct x as [|c x].
      * rewrite concat_cons in Htext. destruct (IH Htext) as (t & Hin & Hne).
        exists t. split; [now right | exact Hne].
      * exists (String c x). split; [now left | discriminate].
    + pose proof (dispatches_resume_feedback wd file texts Hopt Hfile Hbtn Hwf Htext)
        as Hd.
      destruct (run_cases model environ wd)
        as [(_ & _ & _ & _ & Hno) | [(uc & input & result & Hd' & _ & _ & Hc & _)
           | (msg & _ & _ & _ & [(_ & Hno) | (uc & input & Hd' & Hc & _)])]].
      * destruct (Hno _ _ Hd).
      * destruct (dispatches_unique _ _ _ _ _ Hd Hd') as [<- <-]. exact Hc.
      * destruct (Hno _ _ Hd).
      * destruct (dispatches_unique _ _ _ _ _ Hd Hd') as [<- <-]. exact Hc.
  - right. apply truthy_false in Htext. split.
    + now apply concat_empty.
    + now rewrite (run_empty_text model environ wd file texts Hopt Hfile Hbtn Hwf Htext).
Qed.

Lemma X9_witness :
  ((exists t, In t ["Jane Doe"; "Skills: Rocq"] /\ t <> "") /\
   gen_calls (snd (run (Examples.answers "Looks good.") Examples.with_key
     (Examples.widgets "Resume Feedback" (Some Examples.two_pages) "" ""))) =
     [resume_feedback_prompt (String.concat "" ["Jane Doe"; "Skills: Rocq"])]) \/
  ((forall t, In t ["Jane Doe"; "Skills: Rocq"] -> t = "") /\
   gen_calls (snd (run (Examples.answers "Looks good.") Examples.with_key
     (Examples.widgets "Resume Feedback" (Some Examples.two_pages) "" ""))) = []).
Proof.
  apply (X9_resume_needs_some_text (Examples.answers "Looks good.")
           Examples.with_key
           (Examples.widgets "Resume Feedback" (Some Examples.two_pages) "" "")
           Examples.two_pages ["Jane Doe"; "Skills: Rocq"]).
  - reflexivity.
  - reflexivity.
  - reflexivity.
  - eexists. split; reflexivity.
Defined.

Lemma length_append (a b : string) :
  String.length (a ++ b) = String.length a + String.length b.
Proof. induction a as [|c a IH]; simpl; [reflexivity | now rewrite IH]. Qed.

Lemma append_inv_tail (a b p : string) : a ++ p = b ++ p -> a = b.
Proof.
  revert b. induction a as [|c a IH]; intros [|d b] H.
  - reflexivity.
  - apply (f_equal String.length) in H. simpl in H.
    rewrite length_append in H. lia.
  - apply (f_equal String.length) in H. simpl in H.
    rewrite length_append in H. lia.
  - simpl in H. injection H as -> H. now rewrite (IH b H).
Qed.

Lemma occurs_append (c : ascii) (a b : string) :
  occurs c (a ++ b) = occurs c a || occurs c b.
Proof.
  induction a as [|x a IH]; simpl; [reflexivity|].
  now rewrite IH, orb_assoc.
Qed.

Lemma occurs_replace (old new : ascii) (s : string) :
  old <> new -> occurs old (replace old new s) = false.
Proof.
  intros Hne. induction s as [|c s IH]; simpl; [reflexivity|].
  rewrite IH, orb_false_r.
  destruct (Ascii.eqb c old) eqn:Hc.
  - apply Ascii.eqb_neq. congruence.
  - exact Hc.
Qed.

(** X10. [s.replace(old, new)] on single characters keeps the length of
    [s], leaves no [old] behind when [new] differs from it, and changes
    nothing in a string without [old]. *)
Theorem X10_replace_properties (old new : ascii) (s : string) :
  String.length (replace old new s) = String.length s /\
  (old <> new -> occurs old (replace old new s) = false) /\
  (occurs old s = false -> replace old new s = s).
Proof.
  split; [|split].
  - induction s as [|c s IH]; simpl; [reflexivity | now rewrite IH].
  - apply occurs_replace.
  - induction s as [|c s IH]; simpl; [reflexivity|].
    intros H. apply orb_false_iff in H as [Hc Hs].
    now rewrite Hc, (IH Hs).
Qed.

Lemma X10_witness :
  String.length (replace " " "_" "Full Stack Developer") =
    String.length "Full Stack Developer" /\
  occurs " " (replace " " "_" "Full Stack Developer") = false /\
  replace " " "_" "DevOps" = "DevOps".
Proof.
  destruct (X10_replace_properties " " "_" "Full Stack Developer")
    as (Hlen & Hnone & _).
  destruct (X10_replace_properties " " "_" "DevOps") as (_ & _ & Hsame).
  split; [exact Hlen|]. split.
  - apply Hnone. discriminate.
  - apply Hsame. reflexivity.
Defined.

(** X11. A run offers a download only for a dispatched use case, under
    the file name of its page: a fixed name for feedback and advice, the
    typed goal or domain (not the selected level or focus) with every
    space turned into an underscore, followed by a fixed suffix, for
    roadmap and interview.  No such name contains a space. *)
Theorem X11_download_names (model : GenerativeModel) (environ : Environ)
    (wd : Widgets) (name : string) :
  In name (download_names (ui (snd (run model environ wd)))) ->
  occurs " " name = false /\
  exists uc input, dispatches wd uc input /\ name = download_name uc wd.
Proof.
  destruct (run_cases model environ wd)
    as [(_ & _ & _ & Hn & _) | [(uc & input & result & Hd & _ & _ & _ & _ & _ & Hn)
       | (msg & _ & _ & Hn & _)]];
    rewrite Hn; cbn; intros H; try contradiction.
  destruct H as [<- | []]. split; [|now exists uc, input].
  destruct uc; cbn [download_name]; try reflexivity;
    rewrite occurs_append, occurs_replace by discriminate; reflexivity.
Qed.

Lemma X11_witness :
  In "Full_Stack_Developer_roadmap.txt"
    (download_names (ui (snd (run (Examples.answers "A plan.") Examples.with_key
       (Examples.widgets "Career Roadmap" None "Full Stack Developer"
          "Beginner"))))) /\
  occurs " " "Full_Stack_Developer_roadmap.txt" = false /\
  exists uc input,
    dispatches (Examples.widgets "Career Roadmap" None "Full Stack Developer"
                  "Beginner") uc input /\
    "Full_Stack_Developer_roadmap.txt" =
      download_name uc (Examples.widgets "Career Roadmap" None
                          "Full Stack Developer" "Beginner").
Proof.
  assert (H : In "Full_Stack_Developer_roadmap.txt"
    (download_names (ui (snd (run (Examples.answers "A plan.") Examples.with_key
       (Examples.widgets "Career Roadmap" None "Full Stack Developer"
          "Beginner")))))) by (left; reflexivity).
  split; [exact H|].
  exact (X11_download_names _ _ _ _ H).
Defined.

(** X12. When a use case is dispatched and the generation call raises an
    [Exception], the run ends normally and treats the error text as a
    result: it is rendered with [st.markdown] and offered for download
    under the usual file name; nothing is shown with [st.error]. *)
Theorem X12_generation_error_shown_as_result (model : GenerativeModel)
    (environ : Environ) (wd : Widgets) (uc : UseCase) (input msg : string) :
  dispatches wd uc input ->
  generation_raises model (environ "GEMINI_API_KEY") (build uc input) msg ->
  fst (run model environ wd) = Return tt /\
  results (ui (snd (run model environ wd))) =
    [(error_prefix uc ++ msg, error_prefix uc ++ msg)] /\
  errors (ui (snd (run model environ wd))) = [] /\
  download_names (ui (snd (run model environ wd))) = [download_name uc wd].
Proof.
  intros Hd Hgen.
  destruct (run_shows_generation_error model environ wd uc input msg Hd Hgen)
    as [Hret Hres].
  split; [exact Hret|]. split; [exact Hres|].
  destruct (run_cases model environ wd)
    as [(_ & _ & _ & _ & Hno) | [(uc' & input' & result & Hd' & _ & _ & _ & _ & He & Hn)
       | (m & Hret' & _)]].
  - destruct (Hno _ _ Hd).
  - destruct (dispatches_unique _ _ _ _ _ Hd Hd') as [<- <-]. now split.
  - rewrite Hret in Hret'. discriminate.
Qed.

Lemma X12_witness :
  fst (run Cases.blocked Examples.with_key
         (Examples.widgets "Career Advice" None "How do I negotiate salary?" "")) =
    Return tt /\
  results (ui (snd (run Cases.blocked Examples.with_key
         (Examples.widgets "Career Advice" None "How do I negotiate salary?" "")))) =
    [("Error generating advice: response has no candidates",
      "Error generating advice: response has no candidates")] /\
  errors (ui (snd (run Cases.blocked Examples.with_key
         (Examples.widgets "Career Advice" None "How do I negotiate salary?" "")))) =
    [] /\
  download_names (ui (snd (run Cases.blocked Examples.with_key
         (Examples.widgets "Career Advice" None "How do I negotiate salary?" "")))) =
    ["career_advice.txt"].
Proof.
  apply (X12_generation_error_shown_as_result Cases.blocked Examples.with_key
           (Examples.widgets "Career Advice" None "How do I negotiate salary?" "")
           CareerAdvice "How do I negotiate salary?"
           "response has no candidates").
  - apply dispatches_career_advice; reflexivity.
  - right. eexists. split; reflexivity.
Defined.

Lemma use_case_function_aborts (model : GenerativeModel) (uc : UseCase)
    (input msg : string) (w : World) :
  generation_aborts model (api_key w) (build uc input) msg ->
  use_case_function model uc input w =
    (Raise (BaseException msg), log_call (build uc input) w).
Proof.
  intros [Hgen | (response & Hgen & Htext)];
    destruct uc; cbn [use_case_function build] in *;
    unfold get_resume_feedback, generate_roadmap, mock_interview,
      get_career_advice, try_except, bind, generate_content, lift;
    rewrite Hgen; try rewrite Htext; reflexivity.
Qed.

(** X13. An exception that is not an [Exception] (a [KeyboardInterrupt],
    say) raised by the generation call is not turned into text: the
    use-case function lets it through after the call was made, the run
    stops with it, and no result and no download are shown. *)
Theorem X13_base_exception_stops_the_run (model : GenerativeModel)
    (environ : Environ) (wd : Widgets) (uc : UseCase) (input msg : string) :
  dispatches wd uc input ->
  generation_aborts model (environ "GEMINI_API_KEY") (build uc input) msg ->
  fst (run model environ wd) = Raise (BaseException msg) /\
  gen_calls (snd (run model environ wd)) = [build uc input] /\
  results (ui (snd (run model environ wd))) = [] /\
  download_names (ui (snd (run model environ wd))) = [].
Proof.
  intros Hd Hgen.
  pose proof (use_case_function_aborts model uc input msg
                (set_api_key (environ "GEMINI_API_KEY") initial_world) Hgen) as Hf.
  destruct (run_cases model environ wd)
    as [(_ & _ & _ & _ & Hno) | [(uc' & input' & result & Hd' & Hf' & _)
       | (m & Hret & Hres & Hn & [(_ & Hno) | (uc' & input' & Hd' & Hc & Hf')])]].
  - destruct (Hno _ _ Hd).
  - destruct (dispatches_unique _ _ _ _ _ Hd Hd') as [<- <-].
    rewrite Hf in Hf'. discriminate.
  - destruct (Hno _ _ Hd).
  - destruct (dispatches_unique _ _ _ _ _ Hd Hd') as [<- <-].
    rewrite Hf in Hf'. cbn in Hf'. injection Hf' as <-. auto.
Qed.

Lemma X13_witness :
  fst (run Cases.interrupted Examples.with_key
         (Examples.widgets "Career Advice" None "How do I negotiate salary?" "")) =
    Raise (BaseException "KeyboardInterrupt") /\
  gen_calls (snd (run Cases.interrupted Examples.with_key
         (Examples.widgets "Career Advice" None "How do I negotiate salary?" ""))) =
    [build CareerAdvice "How do I negotiate salary?"] /\
  results (ui (snd (run Cases.interrupted Examples.with_key
         (Examples.widgets "Career Advice" None "How do I negotiate salary?" "")))) =
    [] /\
  download_names (ui (snd (run Cases.interrupted Examples.with_key
         (Examples.widgets "Career Advice" None "How do I negotiate salary?" "")))) =
    [].
Proof.
  apply (X13_base_exception_stops_the_run Cases.interrupted Examples.with_key
           (Examples.widgets "Career Advice" None "How do I negotiate salary?" "")
           CareerAdvice "How do I negotiate salary?" "KeyboardInterrupt").
  - apply dispatches_career_advice; reflexivity.
  - left. reflexivity.
Defined.

(** Strips the literal part of a template from both sides of an equation
    between two prompts. *)
Ltac strip_template H :=
  cbn in H; repeat (injection H as H).

(** X14. A prompt determines the input it was built from: two different
    inputs never give the same prompt, for any of the four templates. *)
Theorem X14_build_injective (uc : UseCase) (v v' : string) :
  build uc v = build uc v' -> v = v'.
Proof.
  intros H. destruct uc; strip_template H; exact (append_inv_tail _ _ _ H).
Qed.

Lemma X14_witness :
  build CareerAdvice "How do I negotiate salary?" =
  build CareerAdvice "How do I negotiate salary?" /\
  "How do I negotiate salary?" = "How do I negotiate salary?".
Proof.
  split; [reflexivity|].
  exact (X14_build_injective CareerAdvice _ _ eq_refl).
Defined.

(** X15. [st.error] is used for one thing only: a message on the page is
    always the message of an [Exception] met while reading the file
    uploaded on the Resume Feedback page, after the button was clicked. *)
Theorem X15_errors_are_extraction_errors (model : GenerativeModel)
    (environ : Environ) (wd : Widgets) (message : string) :
  In message (errors (ui (snd (run model environ wd)))) ->
  exists file msg,
    option_choice wd = service_label ResumeFeedback /\
    uploaded_file wd = Some file /\
    analyze_button wd = true /\
    extraction_raises file msg /\
    message = "Error reading PDF: " ++ msg.
Proof.
  run_script.
  destruct (option_choice wd =? "Resume Feedback") eqn:Hopt1.
  { apply String.eqb_eq in Hopt1.
    destruct (uploaded_file wd) as [file|] eqn:Hfile;
      [destruct (analyze_button wd) eqn:Hbtn|]; run_pure;
      try contradiction.
    match goal with
    | |- context [extract_text_from_pdf file ?w] =>
        destruct (extract_text_from_pdf_cases file w)
          as [(texts & _ & Hx) | [(msg & Hraise & Hx) | (msg & Hx)]]
    end; rewrite Hx; run_pure; try contradiction.
    - destruct (truthy (String.concat "" texts)); run_pure;
        [split_use_case model ResumeFeedback|]; contradiction.
    - intros [<- | []]. exists file, msg. auto. }
  destruct (option_choice wd =? "Career Roadmap").
  { destruct (truthy (goal wd)); [destruct (roadmap_button wd)|]; run_pure;
      [split_use_case model CareerRoadmap| |]; contradiction. }
  destruct (option_choice wd =? "Mock Interview").
  { destruct (truthy (domain wd)); [destruct (interview_button wd)|]; run_pure;
      [split_use_case model MockInterview| |]; contradiction. }
  destruct (option_choice wd =? "Career Advice").
  { destruct (truthy (question wd)); [destruct (advice_button wd)|]; run_pure;
      [split_use_case model CareerAdvice| |]; contradiction. }
  run_pure. contradiction.
Qed.

Lemma X15_witness :
  In "Error reading PDF: unsupported encoding"
    (errors (ui (snd (run (Examples.answers "Looks good.") Examples.with_key
       (Examples.widgets "Resume Feedback" (Some Examples.torn) "" ""))))) /\
  exists file msg,
    option_choice (Examples.widgets "Resume Feedback" (Some Examples.torn) "" "") =
      service_label ResumeFeedback /\
    uploaded_file (Examples.widgets "Resume Feedback" (Some Examples.torn) "" "") =
      Some file /\
    analyze_button (Examples.widgets "Resume Feedback" (Some Examples.torn) "" "") =
      true /\
    extraction_raises file msg /\
    "Error reading PDF: unsupported encoding" = "Error reading PDF: " ++ msg.
Proof.
  assert (H : In "Error reading PDF: unsupported encoding"
    (errors (ui (snd (run (Examples.answers "Looks good.") Examples.with_key
       (Examples.widgets "Resume Feedback" (Some Examples.torn) "" ""))))))
    by (left; reflexivity).
  split; [exact H|].
  exact (X15_errors_are_extraction_errors _ _ _ _ H).
Defined.
